(** * The chat endpoint of beyb-react-app: [server/api/chat.post.ts]

    A shallow embedding of the request handler (validation, Live/Demo mode
    selection, the Demo-mode synthesizer, the stream it writes, and the tool
    catalogue of the Live path), followed by the properties proved about it.

    Conventions.
    - A JavaScript string is the list of its UTF-16 code units, so [length],
      [slice] and concatenation are the list operations.
    - A JavaScript number is an IEEE-754 binary64 value: Rocq's primitive
      [float], whose [+], [-], [<?] and [=?] are the machine operations.
    - The request body is a tree of JSON-like values; objects are finite maps
      from property names to values.
    - [throw] / [try ... catch] are the error monad [result].
    - Functions imported from [~/lib/ai-tools], from the [ai] SDK and the
      built-ins of the JavaScript engine whose code is not part of this file
      are fields of the records [AiTools] and [Platform]; every theorem
      holds for all their implementations. *)

From Stdlib Require Import ZArith NArith String Ascii Floats Uint63 Decimal.
From Stdlib Require Import Sorting.Sorted Sorting.Permutation.
From stdpp Require Import base option list gmap.

Set Warnings "-register-all".
#[local] Open Scope list_scope.

(** ** Strings *)

(** UTF-16 code units. *)
Definition jsstring := list N.

(** An ASCII literal of the source, one code unit per character. *)
Definition lit (s : string) : jsstring :=
  List.map N_of_ascii (list_ascii_of_string s).

(** The line feed written [\n] in the source. *)
Definition nl : jsstring := [10%N].

(** [Array.prototype.join] on strings. *)
Fixpoint join (sep : jsstring) (parts : list jsstring) : jsstring :=
  match parts with
  | [] => []
  | [p] => p
  | p :: rest => p ++ sep ++ join sep rest
  end.

(** A relative index of [slice], clamped to [0 .. len]. *)
Definition clamp_index (len : nat) (i : Z) : nat :=
  if (i <? 0)%Z then Z.to_nat (Z.max (Z.of_nat len + i) 0)
  else Nat.min (Z.to_nat i) len.

(** [slice(start, end)] of strings and of arrays; [end_ = None] is an omitted
    [end]. *)
Definition slice {A} (s : list A) (start : Z) (end_ : option Z) : list A :=
  let len := length s in
  let from := clamp_index len start in
  let to := match end_ with Some e => clamp_index len e | None => len end in
  take (to - from) (drop from s).

(** Decimal digits of a natural number, as [String(n)] prints an array length. *)
Fixpoint uint_digits (u : Decimal.uint) : jsstring :=
  match u with
  | Nil => []
  | D0 u => 48%N :: uint_digits u
  | D1 u => 49%N :: uint_digits u
  | D2 u => 50%N :: uint_digits u
  | D3 u => 51%N :: uint_digits u
  | D4 u => 52%N :: uint_digits u
  | D5 u => 53%N :: uint_digits u
  | D6 u => 54%N :: uint_digits u
  | D7 u => 55%N :: uint_digits u
  | D8 u => 56%N :: uint_digits u
  | D9 u => 57%N :: uint_digits u
  end.

Definition nat_to_string (n : nat) : jsstring := uint_digits (Nat.to_uint n).

(** [needle] occurs in [hay] as a contiguous substring. *)
Definition occurs_in (needle hay : jsstring) : Prop :=
  exists before after, hay = before ++ needle ++ after.

(** ** Values *)

Inductive value :=
| VUndefined
| VNull
| VBool (b : bool)
| VNum (n : float)
| VStr (s : jsstring)
| VArr (items : list value)
| VObj (fields : gmap jsstring value).

Definition is_nan (x : float) : bool := negb (x =? x)%float.

(** ToBoolean: the falsy values are [undefined], [null], [false], [+0], [-0],
    [NaN] and the empty string. *)
Definition truthy (v : value) : bool :=
  match v with
  | VUndefined | VNull => false
  | VBool b => b
  | VNum n => negb (is_nan n) && negb (n =? 0)%float
  | VStr s => match s with [] => false | _ => true end
  | VArr _ | VObj _ => true
  end.

(** [a || b] *)
Definition or_else (a b : value) : value := if truthy a then a else b.

Definition isArray (v : value) : bool :=
  match v with VArr _ => true | _ => false end.

(** [Array.isArray(v) ? v : []] *)
Definition array_or_empty (v : value) : list value :=
  match v with VArr items => items | _ => [] end.

(** [v?.k] for a property name [k] that no built-in prototype defines (the
    handler reads [messages], [walletAddress], [mockBalances], [positions],
    [currentValue], [token] and [symbol]): an own property of an object, and
    [undefined] on every other value. *)
Definition get_opt (v : value) (k : jsstring) : value :=
  match v with
  | VObj fields => default VUndefined (fields !! k)
  | _ => VUndefined
  end.

(** ** Exceptions *)

Inductive thrown :=
| H3Error (statusCode : Z) (message : jsstring)   (* createError({ statusCode, message }) *)
| JsError (message : jsstring)                    (* any other instance of Error *)
| NonError (v : value).                           (* a thrown value that is not an Error *)

Inductive result (A : Type) :=
| Ok (a : A)
| Throw (e : thrown).
Arguments Ok {A} a.
Arguments Throw {A} e.

#[export] Instance result_ret : MRet result := fun _ a => Ok a.
#[export] Instance result_bind : MBind result := fun _ _ f m =>
  match m with Ok a => f a | Throw e => Throw e end.
#[export] Instance result_fmap : FMap result := fun _ _ f m =>
  match m with Ok a => Ok (f a) | Throw e => Throw e end.

(** [try { body } catch (error) { handler(error) }] *)
Definition try_catch {A} (body : result A) (handler : thrown -> result A) : result A :=
  match body with Ok a => Ok a | Throw e => handler e end.

(** [createError({ statusCode, message })] of h3. *)
Definition createError (statusCode : Z) (message : jsstring) : thrown :=
  H3Error statusCode message.

(** ** Results of the domain functions *)

(** Modelled from the spec: the type declarations of [~/lib/ai-tools] are not
    in the source tree.  A wallet balance is
    [{ token: { symbol, ... }, balance: decimal-string, valueUSD: number }];
    the handler reads [token?.symbol], [balance] and [valueUSD]. *)
Record Token := { symbol : jsstring }.
Record WalletBalance := {
  token : option Token;
  balance : jsstring;
  valueUSD : float
}.
Record BalancesResult := {
  totalValueUSD : float;
  balances : list WalletBalance
}.

Inductive RiskLevel := Low | Medium | High.

(** Modelled from the spec: [Strategy] is
    [{ id, name, protocol, apy: number, riskLevel: Low|Medium|High }]. *)
Record Strategy := {
  strategyId : jsstring;   (* the [id] field *)
  name : jsstring;
  protocol : jsstring;
  apy : float;
  riskLevel : RiskLevel
}.
Record StrategiesResult := { strategies : list Strategy }.

(** ** Collaborators *)

(** The request-scoped snapshot the tool closures capture: [mockBalances] and
    [positions] of the request body. *)
Record Store := {
  stored_balances : value;
  stored_positions : value
}.

(** The functions imported from [~/lib/ai-tools] (lines 10-19).  Each may
    return or throw.  [executeDeposit] and [executeWithdrawFromPosition] are
    the mutating actions: they are imported and, as the definitions below
    show, never called; here they may change the store in any way. *)
Record AiTools := {
  executeGetWalletBalances : value -> result BalancesResult;
  executeClassifyTokens : value -> result value;
  executeFindYieldStrategies : value -> result StrategiesResult;
  executeGetStrategyDetails : value -> result value;
  executePreviewDeposit : value -> value -> value -> result value;
  executeDeposit : value -> Store -> result value * Store;
  executeGetPositions : value -> result value;
  executeWithdrawFromPosition : value -> Store -> result value * Store
}.

(** Built-ins of the JavaScript engine and of the [ai] SDK that the handler
    calls and whose algorithms are outside this file. *)
Record Platform := {
  (* [n.toLocaleString('en-US', { minimumFractionDigits: 2, maximumFractionDigits: 2 })] *)
  toLocaleString : float -> jsstring;
  (* [n.toFixed(digits)] *)
  toFixed : float -> nat -> jsstring;
  (* ToNumber on a string, and on an array or object (which may throw) *)
  StringToNumber : jsstring -> float;
  ObjectToNumber : value -> result float;
  (* ToString of a value that is not a string, as a template literal applies it *)
  ToString : value -> result jsstring;
  (* the text of [formatAddress(v)] in a template literal when [v] is truthy
     and not a string, outside the declared parameter type [address: string] *)
  formatUntypedAddress : value -> result jsstring;
  JSON_stringify : value -> jsstring;
  (* the TypeError of destructuring [undefined] or [null] *)
  destructureError : value -> thrown;
  (* [convertToCoreMessages] of the SDK *)
  convertToCoreMessages : list value -> result value
}.

(** ** The stream writer *)

Inductive frame :=
| FStart
| FStartStep
| FTextStart (id : jsstring)
| FTextDelta (id : jsstring) (delta : jsstring)
| FTextEnd (id : jsstring)
| FFinishStep
| FFinish (finishReason : jsstring).

(** The writer handed to [execute]: the frames written so far. *)
Definition writer := list frame.

(** [writer.write(frame)] *)
Definition write (f : frame) (w : writer) : writer := w ++ [f].

(** [createUIMessageStream({ execute })]: the frames [execute] writes, in
    the order of the writes.  What the SDK adds when it sends them (the
    generated message id of the start frame) is [sent_chunks] below. *)
Definition createUIMessageStream (execute : writer -> writer) : list frame :=
  execute [].

(** ** Tools of the Live path *)

Inductive tool_name :=
| get_wallet_balances
| classify_tokens
| find_yield_strategies
| get_strategy_details
| preview_deposit
| execute_deposit
| get_positions
| withdraw_from_position.

Inductive tool_output :=
| OutBalances (r : BalancesResult)
| OutStrategies (r : StrategiesResult)
| OutValue (v : value)                               (* a result the handler never inspects *)
| OutAction (success : bool) (error : jsstring).     (* [{ success, error }] *)

(** What a model session is opened with: the argument of [streamText].  The
    tools are recorded by name; what each does when called, with the
    request's [mockBalances] and [positions], is [tool_execute]. *)
Record StreamTextOptions := {
  model : jsstring;
  messages : value;
  system : jsstring;
  maxTokens : nat;
  tools : list tool_name
}.

Inductive response :=
| UIMessageStreamResponse (stream : list frame)        (* createUIMessageStreamResponse({ stream }) *)
| StreamTextResponse (session : StreamTextOptions).    (* streamText(...).toUIMessageStreamResponse() *)

(** ** The handler *)

(** [[...l].sort(cmp)].  ECMAScript requires the sort to be stable, and treats
    a comparator result that is [NaN] as [0]; for a consistent comparator the
    sorted order is then unique, and is the one computed here by insertion:
    an element moves behind [y] exactly when [cmp x y > 0].  With a
    comparator that is not consistent (line 74's is not when an APY is NaN)
    the order is the engine's own and this definition does not give it. *)
Section Sort.
Context {A : Type} (cmp : A -> A -> float).

Fixpoint insert_sorted (x : A) (l : list A) : list A :=
  match l with
  | [] => [x]
  | y :: rest =>
      if (0 <? cmp x y)%float then y :: insert_sorted x rest
      else x :: y :: rest
  end.

Definition sort (l : list A) : list A := foldr insert_sorted [] l.
End Sort.

Section Handler.
Context (ai : AiTools) (js : Platform).

(** [Number(v)] *)
Definition Number (v : value) : result float :=
  match v with
  | VUndefined => Ok nan
  | VNull => Ok 0%float
  | VBool b => Ok (if b then 1 else 0)%float
  | VNum n => Ok n
  | VStr s => Ok (StringToNumber js s)
  | VArr _ | VObj _ => ObjectToNumber js v
  end.

(** [Array.prototype.reduce] with a callback that may throw. *)
Fixpoint reduce {B C} (f : C -> B -> result C) (l : list B) (acc : C) : result C :=
  match l with
  | [] => Ok acc
  | x :: rest => acc' ← f acc x; reduce f rest acc'
  end.

(** Lines 64-67. *)
Definition totalPositionsValue (positionsList : list value) : result float :=
  reduce
    (fun sum position =>
       n ← Number (or_else (get_opt position (lit "currentValue")) (VNum 0));
       Ok (sum + n)%float)
    positionsList 0%float.

(** Line 69: [balances.map((balance) => balance?.token?.symbol).filter(Boolean)] *)
Definition tokenSymbols (balances : list value) : list value :=
  List.filter truthy
    (List.map (fun balance => get_opt (get_opt balance (lit "token")) (lit "symbol")) balances).

(** Lines 70-72: the argument of the strategy search,
    [{ tokens: tokenSymbols.length > 0 ? tokenSymbols : undefined }]. *)
Definition strategyQuery (balances : list value) : value :=
  let tokenSymbols := tokenSymbols balances in
  VObj {[ lit "tokens" :=
            if (0 <? length tokenSymbols)%nat then VArr tokenSymbols else VUndefined ]}.

(** Lines 73-75. *)
Definition suggestedStrategies (strategyResult : StrategiesResult) : list Strategy :=
  slice (sort (fun a b => (apy b - apy a)%float) (strategies strategyResult))
    0 (Some 3%Z).

(** Lines 77-78. *)
Definition formatUsd (value : float) : jsstring :=
  lit "$" ++ toLocaleString js value.

(** Lines 79-80. *)
Definition formatAddress (address : jsstring) : jsstring :=
  if (10 <? length address)%nat
  then slice address 0 (Some 6%Z) ++ lit "..." ++ slice address (-4) None
  else address.

Definition riskLevel_text (r : RiskLevel) : jsstring :=
  match r with Low => lit "Low" | Medium => lit "Medium" | High => lit "High" end.

(** Lines 88-91: one line of the balance listing. *)
Definition balanceLine (balance_ : WalletBalance) : jsstring :=
  let symbol :=
    match token balance_ with
    | Some t => match symbol t with [] => lit "TOKEN" | s => s end
    | None => lit "TOKEN"
    end in
  lit "- " ++ symbol ++ lit ": " ++ balance balance_
    ++ lit " (~" ++ formatUsd (valueUSD balance_) ++ lit ")".

(** The three characters between the protocol and the APY on line 106, as
    the source file has them: U+00E2, U+20AC, U+201D. *)
Definition strategy_separator : jsstring := [226%N; 8364%N; 8221%N].

(** Lines 104-107: one line of the strategy listing. *)
Definition strategyLine (strategy : Strategy) : jsstring :=
  lit "- " ++ name strategy ++ lit " (" ++ protocol strategy ++ lit ") "
    ++ strategy_separator ++ lit " " ++ toFixed js (apy strategy) 1
    ++ lit "% APY, " ++ riskLevel_text (riskLevel strategy) ++ lit " risk".

Definition demo_intro : jsstring :=
  lit "Demo mode: ANTHROPIC_API_KEY is not set, so responses are scripted.".

Definition demo_closing : jsstring :=
  nl ++ nl ++ lit "This is a demo with simulated transactions. Always consider risks and impermanent loss.".

(** Lines 111-114: the text for a request without a wallet. *)
Definition demo_generic : jsstring :=
  (nl ++ nl ++ lit "Yield farming means putting tokens into protocols to earn rewards. Common strategies include lending, staking, and providing liquidity.")
    ++ (nl ++ lit "Connect a wallet to see personalized mock balances and strategy suggestions.").

(** Lines 87-95. *)
Definition balancesSection (balancesResult : BalancesResult) : jsstring :=
  if (0 <? length (balances balancesResult))%nat
  then nl ++ nl ++ lit "Balances:" ++ nl
         ++ join nl (List.map balanceLine (balances balancesResult))
  else nl ++ nl ++ lit "Balances: none yet. Connect a wallet to generate mock balances.".

(** Lines 97-101. *)
Definition positionsSection (positionsList : list value) (totalPositionsValue : float)
  : jsstring :=
  if (0 <? length positionsList)%nat
  then nl ++ nl ++ lit "Active positions: " ++ nat_to_string (length positionsList)
         ++ lit " (total " ++ formatUsd totalPositionsValue ++ lit ")"
  else nl ++ nl ++ lit "Active positions: none yet.".

(** Lines 103-109. *)
Definition strategiesSection (suggested : list Strategy) : jsstring :=
  if (0 <? length suggested)%nat
  then nl ++ nl ++ lit "Suggested strategies:" ++ nl
         ++ join nl (List.map strategyLine suggested)
  else [].

(** [`${formatAddress(walletAddress)}`] for a truthy [walletAddress]. *)
Definition addressText (walletAddress : value) : result jsstring :=
  match walletAddress with
  | VStr s => Ok (formatAddress s)
  | v => formatUntypedAddress js v
  end.

(** Lines 62-117: the Demo-mode synthesizer, up to the finished text. *)
Definition demoText (walletAddress mockBalances positions : value) : result jsstring :=
  let balances_ := array_or_empty mockBalances in
  let positionsList := array_or_empty positions in
  totalPositionsValue_ ← totalPositionsValue positionsList;
  balancesResult ← executeGetWalletBalances ai (VArr balances_);
  strategyResult ← executeFindYieldStrategies ai (strategyQuery balances_);
  let suggested := suggestedStrategies strategyResult in
  let demoText := demo_intro in
  demoText ←
    (if truthy walletAddress then
       address ← addressText walletAddress;
       let demoText := demoText ++ (nl ++ nl ++ lit "Wallet: " ++ address) in
       let demoText := demoText
         ++ (nl ++ lit "Total balance: " ++ formatUsd (totalValueUSD balancesResult)) in
       let demoText := demoText ++ balancesSection balancesResult in
       let demoText := demoText ++ positionsSection positionsList totalPositionsValue_ in
       let demoText := demoText ++ strategiesSection suggested in
       Ok demoText
     else
       Ok (demoText ++ demo_generic));
  Ok (demoText ++ demo_closing).

(** Lines 119-129: the stream of the Demo response. *)
Definition demoStream (demoText : jsstring) : list frame :=
  createUIMessageStream (fun writer =>
    let writer := write FStart writer in
    let writer := write FStartStep writer in
    let writer := write (FTextStart (lit "text-1")) writer in
    let writer := write (FTextDelta (lit "text-1") demoText) writer in
    let writer := write (FTextEnd (lit "text-1")) writer in
    let writer := write FFinishStep writer in
    let writer := write (FFinish (lit "stop")) writer in
    writer).
End Handler.

(** ** The Live path *)

(** The double quote character. *)
Definition dq : jsstring := [34%N].

(** Lines 21-45, one entry per line of the template literal. *)
Definition SYSTEM_PROMPT : jsstring :=
  join nl [
    lit "You are a helpful and knowledgeable DeFi yield farming assistant. Your role is to help users understand yield farming, discover opportunities, and manage their positions.";
    [];
    lit "Key guidelines:";
    lit "- Be friendly and educational, especially for users new to DeFi";
    lit "- Explain concepts clearly without being condescending";
    lit "- When a wallet is connected, use the available tools to provide personalized recommendations";
    lit "- Always mention risks when discussing strategies";
    lit "- Use the preview_deposit tool before executing any deposits";
    lit "- Format numbers clearly (e.g., " ++ dq ++ lit "5.2% APY" ++ dq ++ lit ", " ++ dq ++ lit "$1,234.56" ++ dq ++ lit ")";
    lit "- When showing strategies, highlight the key differences (APY, risk level, protocol)";
    [];
    lit "Remember:";
    lit "- This is a demo/prototype with simulated transactions";
    lit "- All transactions are on testnet (no real money)";
    lit "- Tool calls help provide rich, interactive experiences";
    [];
    lit "When wallet is NOT connected:";
    lit "- Provide general educational content about yield farming";
    lit "- Explain different strategies and protocols";
    lit "- Encourage users to connect their wallet for personalized recommendations";
    [];
    lit "When wallet IS connected:";
    lit "- Use tools to read balances and suggest strategies based on their actual holdings";
    lit "- Provide specific, actionable recommendations";
    lit "- Guide users through deposit and withdrawal flows step by step"
  ].

Definition tool_catalogue : list tool_name :=
  [get_wallet_balances; classify_tokens; find_yield_strategies; get_strategy_details;
   preview_deposit; execute_deposit; get_positions; withdraw_from_position].

Section Live.
Context (ai : AiTools) (js : Platform).

(** A value interpolated in a template literal. *)
Definition interpolate (v : value) : result jsstring :=
  match v with
  | VStr s => Ok s
  | _ => ToString js v
  end.

(** [`${positions?.length || 0}`] *)
Definition positionsCountText (positions : value) : result jsstring :=
  match positions with
  | VArr items => Ok (nat_to_string (length items))
  | VStr s => Ok (nat_to_string (length s))
  | VObj _ => interpolate (or_else (get_opt positions (lit "length")) (VNum 0))
  | _ => Ok (lit "0")
  end.

(** Lines 135-146. *)
Definition systemPrompt (walletAddress mockBalances positions : value) : result jsstring :=
  if truthy walletAddress then
    address ← interpolate walletAddress;
    let balancesJson := JSON_stringify js (or_else mockBalances (VArr [])) in
    count ← positionsCountText positions;
    Ok (SYSTEM_PROMPT
          ++ (nl ++ nl ++ lit "Wallet Status: CONNECTED"
                ++ nl ++ lit "Connected Address: " ++ address
                ++ nl ++ lit "Available Balances: " ++ balancesJson
                ++ nl ++ lit "Active Positions: " ++ count ++ lit " position(s)"
                ++ nl ++ nl
                ++ lit "Use the available tools to help this user manage their yield farming positions."))
  else
    Ok (SYSTEM_PROMPT
          ++ (nl ++ nl ++ lit "Wallet Status: NOT CONNECTED"
                ++ nl
                ++ lit "Provide general information and encourage the user to connect their wallet for personalized recommendations.")).

(** A parameter list that destructures its argument, [({ a, b }) => ...]:
    a TypeError on [undefined] and [null]. *)
Definition destructured {B} (args : value) (body : result B) : result B :=
  match args with
  | VUndefined | VNull => Throw (destructureError js args)
  | _ => body
  end.

(** Lines 155-219: the [execute] function of each tool, run on the input
    [args] the SDK hands it and on the request-scoped store. *)
Definition tool_execute (t : tool_name) (args : value) (st : Store)
  : result tool_output * Store :=
  match t with
  | get_wallet_balances =>
      (OutBalances <$> executeGetWalletBalances ai (or_else (stored_balances st) (VArr [])), st)
  | classify_tokens =>
      (destructured args
         (OutValue <$> executeClassifyTokens ai (get_opt args (lit "tokens"))), st)
  | find_yield_strategies =>
      (OutStrategies <$> executeFindYieldStrategies ai args, st)
  | get_strategy_details =>
      (destructured args
         (OutValue <$> executeGetStrategyDetails ai (get_opt args (lit "strategyId"))), st)
  | preview_deposit =>
      (destructured args
         (OutValue <$> executePreviewDeposit ai (get_opt args (lit "strategyId"))
                         (get_opt args (lit "amount")) (get_opt args (lit "tokenSymbol"))), st)
  | execute_deposit =>
      (Ok (OutAction false (lit "Use client-side deposit action")), st)
  | get_positions =>
      (OutValue <$> executeGetPositions ai (or_else (stored_positions st) (VArr [])), st)
  | withdraw_from_position =>
      (Ok (OutAction false (lit "Use client-side withdraw action")), st)
  end.

(** Lines 134-223.  Of the calls made here only [convertToCoreMessages] and
    the interpolations of the prompt are taken to be able to throw. *)
Definition livePath (messages_ walletAddress mockBalances positions : value)
  : result response :=
  systemPrompt_ ← systemPrompt walletAddress mockBalances positions;
  coreMessages ← convertToCoreMessages js (array_or_empty messages_);
  Ok (StreamTextResponse
        {| model := lit "claude-3-5-sonnet-20241022";
           messages := coreMessages;
           system := systemPrompt_;
           maxTokens := 4096;
           tools := tool_catalogue |}).

(** Line 60: [apiKey && apiKey !== 'sk-ant-your-key-here'], as a boolean.
    [apiKey] is [process.env.ANTHROPIC_API_KEY]: unset ([None]) or a string. *)
Definition hasApiKey (apiKey : option jsstring) : bool :=
  match apiKey with
  | None => false
  | Some key =>
      truthy (VStr key) && negb (bool_decide (key = lit "sk-ant-your-key-here"))
  end.

(** Lines 61-132. *)
Definition demoPath (walletAddress mockBalances positions : value) : result response :=
  text ← demoText ai js walletAddress mockBalances positions;
  Ok (UIMessageStreamResponse (demoStream text)).

(** The message the [catch] clause reports:
    [error instanceof Error ? error.message : 'Unknown error occurred']. *)
Definition error_message (error : thrown) : jsstring :=
  match error with
  | H3Error _ message | JsError message => message
  | NonError _ => lit "Unknown error occurred"
  end.

(** Lines 224-230: the [catch] clause ([console.error] only logs). *)
Definition onError (error : thrown) : result response :=
  Throw (createError 500 (error_message error)).

(** Lines 47-231: the event handler, applied to the credential of the
    process and to the body [readBody] returned.  [Throw] is the error the
    handler leaves to h3, whose [statusCode] becomes the HTTP status. *)
Definition handler (apiKey : option jsstring) (body : value) : result response :=
  try_catch
    (match body with
     | VUndefined | VNull => Throw (destructureError js body)
     | _ =>
         let messages_ := get_opt body (lit "messages") in
         let walletAddress := get_opt body (lit "walletAddress") in
         let mockBalances := get_opt body (lit "mockBalances") in
         let positions := get_opt body (lit "positions") in
         if negb (truthy messages_) || negb (isArray messages_) then
           Throw (createError 400 (lit "Invalid request: messages array required"))
         else if negb (hasApiKey apiKey) then
           demoPath walletAddress mockBalances positions
         else
           livePath messages_ walletAddress mockBalances positions
     end)
    onError.
End Live.

(** ** A concrete set of collaborators

    Stand-ins used to run the handler on examples.  No theorem below depends
    on them: the theorems quantify over every [AiTools] and [Platform]. *)
Module Sample.

(** The magnitude of a finite [x] times [scale], rounded to the nearest
    integer, halves away from zero. *)
Definition scaled_magnitude (scale : Z) (x : float) : Z :=
  match Prim2SF x with
  | S754_finite _ m e =>
      let num := (Z.pos m * scale)%Z in
      if (0 <=? e)%Z then (num * 2 ^ e)%Z
      else let d := (2 ^ (- e))%Z in ((2 * num + d) / (2 * d))%Z
  | _ => 0%Z
  end.

Definition is_negative (x : float) : bool :=
  match Prim2SF x with
  | S754_zero s | S754_infinity s | S754_finite s _ _ => s
  | S754_nan => false
  end.

Definition digits (n : Z) : jsstring := nat_to_string (Z.to_nat n).

(** Digits in groups of three, separated by commas. *)
Fixpoint grouped (fuel : nat) (n : Z) : jsstring :=
  match fuel with
  | O => digits n
  | S fuel' =>
      if (n <? 1000)%Z then digits n
      else
        let r := (n mod 1000)%Z in
        grouped fuel' (n / 1000)%Z ++ lit ","
          ++ (if (r <? 10)%Z then lit "00" else if (r <? 100)%Z then lit "0" else [])
          ++ digits r
  end.

Definition fixed_text (group : bool) (places : nat) (x : float) : jsstring :=
  if is_nan x then lit "NaN"
  else
    let sign := if is_negative x then lit "-" else [] in
    match Prim2SF x with
    | S754_infinity _ => sign ++ [8734%N]
    | _ =>
        let scale := (10 ^ Z.of_nat places)%Z in
        let q := scaled_magnitude scale x in
        let whole := (q / scale)%Z in
        let frac := digits (q mod scale)%Z in
        sign ++ (if group then grouped 120 whole else digits whole)
          ++ lit "." ++ replicate (places - length frac) 48%N ++ frac
    end.

(** The value of a string of decimal digits. *)
Fixpoint digits_value (acc : Z) (s : jsstring) : option Z :=
  match s with
  | [] => Some acc
  | c :: rest =>
      if ((48 <=? c) && (c <=? 57))%N
      then digits_value (10 * acc + Z.of_N (c - 48))%Z rest
      else None
  end.

(** Reads the empty string and unsigned decimal integers below [2 ^ 53];
    every other string is not a number for this stand-in. *)
Definition string_to_number (s : jsstring) : float :=
  match digits_value 0 s with
  | Some n => if (n <? 2 ^ 53)%Z then PrimFloat.of_uint63 (Uint63.of_Z n) else nan
  | None => nan
  end.

Definition to_balance (item : value) : WalletBalance :=
  {| token :=
       match get_opt item (lit "token") with
       | VObj _ as t =>
           Some {| symbol := match get_opt t (lit "symbol") with VStr s => s | _ => [] end |}
       | _ => None
       end;
     balance := match get_opt item (lit "balance") with VStr s => s | _ => [] end;
     valueUSD := match get_opt item (lit "valueUSD") with VNum n => n | _ => 0%float end |}.

Definition catalogue : list Strategy :=
  [ {| strategyId := lit "aave-usdc"; name := lit "Aave USDC Lending";
       protocol := lit "Aave"; apy := 4.5%float; riskLevel := Low |};
    {| strategyId := lit "curve-3pool"; name := lit "Curve 3pool";
       protocol := lit "Curve"; apy := 8.25%float; riskLevel := Medium |};
    {| strategyId := lit "compound-usdc"; name := lit "Compound USDC";
       protocol := lit "Compound"; apy := 4.5%float; riskLevel := Low |};
    {| strategyId := lit "gmx-glp"; name := lit "GMX GLP";
       protocol := lit "GMX"; apy := 15.5%float; riskLevel := High |};
    {| strategyId := lit "lido-steth"; name := lit "Lido stETH";
       protocol := lit "Lido"; apy := 3.75%float; riskLevel := Low |} ].

Definition ai : AiTools :=
  {| executeGetWalletBalances := fun v =>
       let items := List.map to_balance (array_or_empty v) in
       Ok {| totalValueUSD := foldl (fun acc b => (acc + valueUSD b)%float) 0%float items;
             balances := items |};
     executeClassifyTokens := fun _ => Ok (VArr []);
     executeFindYieldStrategies := fun _ => Ok {| strategies := catalogue |};
     executeGetStrategyDetails := fun _ => Throw (JsError (lit "Strategy not found"));
     executePreviewDeposit := fun _ _ _ => Ok VNull;
     executeDeposit := fun _ st =>
       (Ok (VBool true), {| stored_balances := VArr []; stored_positions := stored_positions st |});
     executeGetPositions := fun v => Ok v;
     executeWithdrawFromPosition := fun _ st =>
       (Ok (VBool true), {| stored_balances := stored_balances st; stored_positions := VArr [] |}) |}.

Definition js : Platform :=
  {| toLocaleString := fixed_text true 2;
     toFixed := fun x places => fixed_text false places x;
     StringToNumber := string_to_number;
     ObjectToNumber := fun _ => Ok nan;
     ToString := fun v =>
       match v with
       | VUndefined => Ok (lit "undefined")
       | VNull => Ok (lit "null")
       | VBool b => Ok (if b then lit "true" else lit "false")
       | _ => Throw (JsError (lit "Cannot convert object to primitive value"))
       end;
     formatUntypedAddress := fun _ =>
       Throw (JsError (lit "address.slice is not a function"));
     JSON_stringify := fun _ => lit "[]";
     destructureError := fun v =>
       JsError (lit "Cannot destructure property 'messages' of 'body' as it is "
                  ++ (match v with VNull => lit "null" | _ => lit "undefined" end)
                  ++ lit ".");
     convertToCoreMessages := fun msgs => Ok (VArr msgs) |}.

Definition user_message : value :=
  VObj (<[lit "role" := VStr (lit "user")]> (<[lit "content" := VStr (lit "hi")]> ∅)).

(** [{ messages: [{ role: "user", content: "hi" }] }] *)
Definition body_no_wallet : value :=
  VObj (<[lit "messages" := VArr [user_message]]> ∅).

Definition usdc_balance : value :=
  VObj (<[lit "token" := VObj (<[lit "symbol" := VStr (lit "USDC")]> ∅)]>
        (<[lit "balance" := VStr (lit "100")]>
        (<[lit "valueUSD" := VNum 100%float]> ∅))).

(** The example of the specification: a wallet holding 100 USDC and no
    position. *)
Definition body_wallet : value :=
  VObj (<[lit "messages" := VArr [user_message]]>
        (<[lit "walletAddress" := VStr (lit "0xABCDEF1234567890")]>
        (<[lit "mockBalances" := VArr [usdc_balance]]>
        (<[lit "positions" := VArr []]> ∅)))).
End Sample.

(** ** Vocabulary of the statements *)

(** The seven frames of a Demo response carrying [text]. *)
Definition demo_frames (text : jsstring) : list frame :=
  [ FStart; FStartStep; FTextStart (lit "text-1"); FTextDelta (lit "text-1") text;
    FTextEnd (lit "text-1"); FFinishStep; FFinish (lit "stop") ].

(** The placeholder credential of line 60. *)
Definition placeholder_key : jsstring := lit "sk-ant-your-key-here".

Definition is_start (f : frame) : bool :=
  match f with FStart => true | _ => false end.
Definition is_finish (f : frame) : bool :=
  match f with FFinish _ => true | _ => false end.
Definition is_text_boundary (f : frame) : bool :=
  match f with FTextStart _ | FTextEnd _ => true | _ => false end.
Definition is_text_delta (f : frame) : bool :=
  match f with FTextDelta _ _ => true | _ => false end.

(** The single character U+2026, horizontal ellipsis. *)
Definition ellipsis : jsstring := [8230%N].

(** ** Order of the machine numbers

    Every finite binary64 number is an integer multiple of [2 ^ emin]; that
    integer, with the infinities placed beyond the finite range, orders all
    numbers other than NaN the way [<?] does. *)
Module FloatOrder.

Definition emin : Z := SpecFloat.emin prec emax.

(** The value of a finite number in units of [2 ^ emin], an integer. *)
Definition units (x : spec_float) : Z :=
  match x with
  | S754_finite s m e => cond_Zopp s (Z.pos m * 2 ^ (e - emin))
  | _ => 0
  end.

(** A key that orders every number other than NaN; the infinities lie just
    beyond the finite range. *)
Definition spec_key (x : spec_float) : Z :=
  match x with
  | S754_infinity s => cond_Zopp s (2 ^ (emax - emin))
  | _ => units x
  end.

Definition order_key (a : float) : Z := spec_key (Prim2SF a).

Definition is_finite (x : spec_float) : bool :=
  match x with
  | S754_finite _ _ _ | S754_zero _ => true
  | _ => false
  end.

(** A number that is neither zero nor NaN and has sign [s]. *)
Definition signed (s : bool) (x : spec_float) : Prop :=
  match x with
  | S754_finite s' _ _ | S754_infinity s' => s' = s
  | _ => False
  end.

End FloatOrder.

(** ** Ranking of strategies, as the specification words it *)

(** No strategy is followed by one with a larger APY. *)
Definition descending_apy (l : list Strategy) : Prop :=
  StronglySorted (fun a b => (apy b <=? apy a)%float = true) l.

(** The strategies whose APY equals [v]. *)
Definition with_apy (v : float) (l : list Strategy) : list Strategy :=
  List.filter (fun s => (apy s =? v)%float) l.

(** ** The position total, as the specification words it *)

(** What one position adds to the total: its [currentValue] when that is a
    number, and 0 when it is missing ([undefined], [null], or another falsy
    value, among them [NaN]). *)
Definition currentValue_of (position : value) : float :=
  match get_opt position (lit "currentValue") with
  | VNum n => if truthy (VNum n) then n else 0%float
  | _ => 0%float
  end.

Definition sum_of_currentValue (positionsList : list value) : float :=
  foldl (fun sum position => (sum + currentValue_of position)%float) 0%float positionsList.

(** The [currentValue] of a position is a number or is missing. *)
Definition numeric_or_missing (position : value) : Prop :=
  match get_opt position (lit "currentValue") with
  | VNum _ => True
  | v => truthy v = false
  end.

(** The line rendered for a request without positions. *)
Definition no_positions_line : jsstring :=
  nl ++ nl ++ lit "Active positions: none yet.".

(** ** Failing collaborators, for examples *)

(** The sample domain functions, with a balance aggregation that throws. *)
Definition failing_balances (thrown_ : thrown) : AiTools :=
  {| executeGetWalletBalances := fun _ => Throw thrown_;
     executeClassifyTokens := executeClassifyTokens Sample.ai;
     executeFindYieldStrategies := executeFindYieldStrategies Sample.ai;
     executeGetStrategyDetails := executeGetStrategyDetails Sample.ai;
     executePreviewDeposit := executePreviewDeposit Sample.ai;
     executeDeposit := executeDeposit Sample.ai;
     executeGetPositions := executeGetPositions Sample.ai;
     executeWithdrawFromPosition := executeWithdrawFromPosition Sample.ai |}.

(** The sample domain functions, with a strategy search that finds nothing
    and a balance aggregation that reports an empty wallet. *)
Definition empty_market : AiTools :=
  {| executeGetWalletBalances := fun _ => Ok {| totalValueUSD := 0%float; balances := [] |};
     executeClassifyTokens := executeClassifyTokens Sample.ai;
     executeFindYieldStrategies := fun _ => Ok {| strategies := [] |};
     executeGetStrategyDetails := executeGetStrategyDetails Sample.ai;
     executePreviewDeposit := executePreviewDeposit Sample.ai;
     executeDeposit := executeDeposit Sample.ai;
     executeGetPositions := executeGetPositions Sample.ai;
     executeWithdrawFromPosition := executeWithdrawFromPosition Sample.ai |}.

(** The line rendered for an empty balance list (line 94). *)
Definition no_balances_line : jsstring :=
  nl ++ nl ++ lit "Balances: none yet. Connect a wallet to generate mock balances.".

(** [Number(v)] on a value that is not an array or object. *)
Definition number_of_primitive (js : Platform) (v : value) : float :=
  match v with
  | VUndefined => nan
  | VNull => 0%float
  | VBool b => (if b then 1 else 0)%float
  | VNum n => n
  | VStr s => StringToNumber js s
  | VArr _ | VObj _ => nan
  end.

(** The [currentValue] of a position is not an array or object. *)
Definition primitive_currentValue (position : value) : Prop :=
  match get_opt position (lit "currentValue") with
  | VArr _ | VObj _ => False
  | _ => True
  end.

(** The [currentValue] of a position is a string that is not a number. *)
Definition non_numeric_currentValue (js : Platform) (position : value) : Prop :=
  exists s, get_opt position (lit "currentValue") = VStr s
            /\ s <> [] /\ is_nan (StringToNumber js s) = true.

(** The block appended to the system prompt when no wallet is connected
    (lines 144-145). *)
Definition not_connected_block : jsstring :=
  nl ++ nl ++ lit "Wallet Status: NOT CONNECTED"
    ++ nl
    ++ lit "Provide general information and encourage the user to connect their wallet for personalized recommendations.".

(** ** The stream as the SDK sends it *)

(** [createUIMessageStream] of the SDK hands on the frames the handler
    writes, and stamps the [start] frame with a message id that it generates
    for the response: two responses to the same request differ in it. *)
Inductive chunk :=
| Chunk (f : frame) (messageId : option jsstring).

Definition stamp (messageId : jsstring) (f : frame) : chunk :=
  match f with
  | FStart => Chunk FStart (Some messageId)
  | _ => Chunk f None
  end.

(** The chunks sent for the frames [stream] written by the handler, under
    the generated id [messageId]. *)
Definition sent_chunks (messageId : jsstring) (stream : list frame) : list chunk :=
  List.map (stamp messageId) stream.

(** The text a client renders from a stream: its text deltas, in order. *)
Definition rendered_text (chunks : list chunk) : jsstring :=
  List.flat_map
    (fun c => match c with Chunk (FTextDelta _ delta) _ => delta | _ => [] end)
    chunks.

(** ** Other collaborators, for examples *)

(** Domain functions that agree with the sample ones on the balance
    aggregation and the strategy search, and on nothing else. *)
Definition idle_tools : AiTools :=
  {| executeGetWalletBalances := executeGetWalletBalances Sample.ai;
     executeClassifyTokens := fun _ => Throw (JsError (lit "not available"));
     executeFindYieldStrategies := executeFindYieldStrategies Sample.ai;
     executeGetStrategyDetails := fun _ => Ok VNull;
     executePreviewDeposit := fun _ _ _ => Throw (JsError (lit "not available"));
     executeDeposit := fun _ st => (Throw (JsError (lit "not available")), st);
     executeGetPositions := fun _ => Ok (VArr []);
     executeWithdrawFromPosition := fun _ st => (Throw (JsError (lit "not available")), st) |}.

(** An engine and SDK that agree with the sample ones on what the Demo
    synthesizer uses, and differ on what only the Live path uses. *)
Definition other_engine : Platform :=
  {| toLocaleString := toLocaleString Sample.js;
     toFixed := toFixed Sample.js;
     StringToNumber := StringToNumber Sample.js;
     ObjectToNumber := ObjectToNumber Sample.js;
     ToString := fun _ => Ok (lit "?");
     formatUntypedAddress := formatUntypedAddress Sample.js;
     JSON_stringify := fun _ => lit "null";
     destructureError := fun _ => JsError (lit "body is not an object");
     convertToCoreMessages := fun _ => Throw (JsError (lit "unsupported message")) |}.


(** A search result in which one APY is NaN. *)
Definition result_with_nan : StrategiesResult :=
  {| strategies :=
       [ {| strategyId := lit "s1"; name := lit "One"; protocol := lit "P";
            apy := 1%float; riskLevel := Low |};
         {| strategyId := lit "s2"; name := lit "Unknown"; protocol := lit "P";
            apy := nan; riskLevel := Medium |};
         {| strategyId := lit "s3"; name := lit "Two"; protocol := lit "P";
            apy := 2%float; riskLevel := High |} ] |}.

(** * Properties *)

Arguments lit : simpl never.
Arguments demo_intro : simpl never.
Arguments demo_generic : simpl never.
Arguments demo_closing : simpl never.
Arguments demo_frames : simpl never.

(** ** Request validation and mode selection *)

Section HandlerFacts.
Context (ai : AiTools) (js : Platform).

Lemma get_opt_array_object body k items :
  get_opt body k = VArr items -> exists fields, body = VObj fields.
Proof. destruct body; simpl; try discriminate. eauto. Qed.

(** Past validation, the handler is the selected path under the [catch]
    clause. *)
Lemma handler_validated apiKey body :
  isArray (get_opt body (lit "messages")) = true ->
  handler ai js apiKey body =
    try_catch
      (if hasApiKey apiKey
       then livePath js (get_opt body (lit "messages")) (get_opt body (lit "walletAddress"))
              (get_opt body (lit "mockBalances")) (get_opt body (lit "positions"))
       else demoPath ai js (get_opt body (lit "walletAddress"))
              (get_opt body (lit "mockBalances")) (get_opt body (lit "positions")))
      onError.
Proof.
  intros Harr. unfold handler.
  destruct (get_opt body (lit "messages")) as [| | | | |items|] eqn:Hm; try discriminate.
  destruct (get_opt_array_object _ _ _ Hm) as [fields ->].
  simpl. destruct (hasApiKey apiKey); reflexivity.
Qed.

Lemma hasApiKey_false_iff apiKey :
  hasApiKey apiKey = false <->
  apiKey = None \/ apiKey = Some [] \/ apiKey = Some placeholder_key.
Proof.
  unfold hasApiKey, placeholder_key. split.
  - destruct apiKey as [key|]; [|auto].
    destruct key as [|c key]; [auto|]. simpl.
    case_bool_decide as Hkey; [intros _; rewrite Hkey; auto | discriminate].
  - intros [-> | [-> | ->]]; [reflexivity .. |].
    rewrite bool_decide_eq_true_2 by reflexivity. apply andb_false_r.
Qed.

Lemma demoPath_response walletAddress mockBalances positions :
  demoPath ai js walletAddress mockBalances positions =
    match demoText ai js walletAddress mockBalances positions with
    | Ok text => Ok (UIMessageStreamResponse (demo_frames text))
    | Throw e => Throw e
    end.
Proof. unfold demoPath. destruct (demoText _ _ _ _ _); reflexivity. Qed.

Lemma livePath_response messages_ walletAddress mockBalances positions r :
  livePath js messages_ walletAddress mockBalances positions = Ok r ->
  exists session, r = StreamTextResponse session.
Proof.
  unfold livePath. destruct (systemPrompt _ _ _ _); simpl; [|discriminate].
  destruct (convertToCoreMessages _ _); simpl; [|discriminate].
  intros [= <-]. eauto.
Qed.
End HandlerFacts.

Lemma handler_rejects_non_array ai js apiKey body :
  body <> VUndefined -> body <> VNull ->
  isArray (get_opt body (lit "messages")) = false ->
  handler ai js apiKey body
  = Throw (H3Error 500 (lit "Invalid request: messages array required")).
Proof.
  intros Hu Hn Harr. unfold handler.
  destruct body; try congruence; simpl in *; try reflexivity.
  rewrite Harr. rewrite orb_true_r. reflexivity.
Qed.

(** C1 (as the code behaves): when [messages] is absent or is not an array,
    whatever the credential and the other fields, the handler rejects the
    request before any mode logic, and the error that leaves the handler has
    status 500: the 400 error raised by the validation is caught by the
    handler's own [catch] clause and re-raised as the generic failure, keeping
    only its message. *)
Theorem invalid_request_leaves_as_500 ai js apiKey body :
  body <> VUndefined -> body <> VNull ->
  isArray (get_opt body (lit "messages")) = false ->
  handler ai js apiKey body
  = Throw (H3Error 500 (lit "Invalid request: messages array required")).
Proof. apply handler_rejects_non_array. Qed.

Lemma invalid_request_leaves_as_500_witness :
  handler Sample.ai Sample.js None (VObj ∅)
  = Throw (H3Error 500 (lit "Invalid request: messages array required")).
Proof.
  apply (invalid_request_leaves_as_500 Sample.ai Sample.js None (VObj ∅));
    [discriminate | discriminate | reflexivity].
Defined.

(** ** The Demo response *)

(** C3: in Demo mode every response stream of the handler is exactly
    start, start-step, text-start, one text-delta with the whole rendered
    text, text-end, finish-step, finish with reason [stop], and such a
    response is produced whenever the synthesizer returns a text.  In
    particular the one [start] is first, the one [finish] is last, and the
    only text block opens and closes with the same id around a single delta. *)
Theorem demo_stream_frames ai js apiKey body :
  isArray (get_opt body (lit "messages")) = true ->
  hasApiKey apiKey = false ->
  let rendered :=
    demoText ai js (get_opt body (lit "walletAddress"))
      (get_opt body (lit "mockBalances")) (get_opt body (lit "positions")) in
  (forall text, rendered = Ok text ->
     handler ai js apiKey body = Ok (UIMessageStreamResponse (demo_frames text)))
  /\ (forall frames, handler ai js apiKey body = Ok (UIMessageStreamResponse frames) ->
        (exists text, rendered = Ok text /\ frames = demo_frames text)
        /\ head frames = Some FStart
        /\ last frames = Some (FFinish (lit "stop"))
        /\ List.filter is_start frames = [FStart]
        /\ List.filter is_finish frames = [FFinish (lit "stop")]
        /\ List.filter is_text_boundary frames
           = [FTextStart (lit "text-1"); FTextEnd (lit "text-1")]
        /\ length (List.filter is_text_delta frames) = 1).
Proof.
  intros Harr Hkey rendered.
  rewrite (handler_validated ai js apiKey body Harr), Hkey, demoPath_response.
  fold rendered. split.
  - intros text ->. reflexivity.
  - intros frames. destruct rendered as [text|e]; simpl; [|discriminate].
    intros [= <-]. split; [eauto|]. repeat split.
Qed.

Lemma demo_stream_frames_witness :
  exists text,
    handler Sample.ai Sample.js None Sample.body_wallet
    = Ok (UIMessageStreamResponse (demo_frames text)).
Proof.
  eexists.
  apply (demo_stream_frames Sample.ai Sample.js None Sample.body_wallet);
    vm_compute; reflexivity.
Defined.

(** C4 (amended): for a request whose [messages] is an array, the handler
    takes the Demo path, and opens no model session, exactly when the
    credential is unset, empty, or the placeholder; for every other
    credential it takes the Live path, and never answers with the scripted
    Demo stream. *)
Theorem mode_selection ai js apiKey body :
  isArray (get_opt body (lit "messages")) = true ->
  let walletAddress := get_opt body (lit "walletAddress") in
  let mockBalances := get_opt body (lit "mockBalances") in
  let positions := get_opt body (lit "positions") in
  (apiKey = None \/ apiKey = Some [] \/ apiKey = Some placeholder_key ->
     handler ai js apiKey body
     = try_catch (demoPath ai js walletAddress mockBalances positions) onError
     /\ forall session, handler ai js apiKey body <> Ok (StreamTextResponse session))
  /\ (~ (apiKey = None \/ apiKey = Some [] \/ apiKey = Some placeholder_key) ->
        handler ai js apiKey body
        = try_catch
            (livePath js (get_opt body (lit "messages")) walletAddress mockBalances positions)
            onError
        /\ forall frames, handler ai js apiKey body <> Ok (UIMessageStreamResponse frames)).
Proof.
  intros Harr walletAddress mockBalances positions.
  rewrite (handler_validated ai js apiKey body Harr).
  fold walletAddress mockBalances positions.
  split; intros Hkey.
  - apply hasApiKey_false_iff in Hkey. rewrite Hkey. split; [reflexivity|].
    intros session. rewrite demoPath_response.
    destruct (demoText _ _ _ _ _); simpl; discriminate.
  - destruct (hasApiKey apiKey) eqn:Hhas.
    + split; [reflexivity|]. intros frames.
      destruct (livePath _ _ _ _ _) as [r|e] eqn:Hlive; simpl; [|discriminate].
      destruct (livePath_response _ _ _ _ _ _ Hlive) as [session ->]. discriminate.
    + exfalso. apply Hkey. apply hasApiKey_false_iff. assumption.
Qed.

Lemma mode_selection_witness :
  (handler Sample.ai Sample.js (Some []) Sample.body_no_wallet
   = try_catch (demoPath Sample.ai Sample.js VUndefined VUndefined VUndefined) onError)
  /\ (handler Sample.ai Sample.js (Some (lit "sk-ant-api03-live")) Sample.body_no_wallet
      = try_catch (livePath Sample.js (VArr [Sample.user_message]) VUndefined VUndefined VUndefined)
          onError).
Proof.
  split.
  - apply (mode_selection Sample.ai Sample.js (Some []) Sample.body_no_wallet);
      [reflexivity | auto].
  - apply (mode_selection Sample.ai Sample.js (Some (lit "sk-ant-api03-live"))
             Sample.body_no_wallet); [reflexivity |].
    intros [H | [H | H]]; discriminate H.
Defined.

(** C4 as stated fails: an empty credential is neither absent nor the
    placeholder, and the handler answers with the Demo stream. *)
Lemma empty_credential_takes_demo_path :
  Some [] <> (None : option jsstring)
  /\ Some [] <> Some placeholder_key
  /\ handler Sample.ai Sample.js (Some []) Sample.body_no_wallet
     = Ok (UIMessageStreamResponse
             (demo_frames (demo_intro ++ demo_generic ++ demo_closing))).
Proof. split; [discriminate | split; [discriminate | reflexivity]]. Qed.

(** ** Tools that would change state *)

(** C8: for every input and every store, [execute_deposit] and
    [withdraw_from_position] return the structured failure
    [{ success: false, error }], do not throw, and leave the store as it was;
    the mutating actions of [~/lib/ai-tools] are not run, whatever they do. *)
Theorem mutating_tools_refuse ai js args st :
  tool_execute ai js execute_deposit args st
  = (Ok (OutAction false (lit "Use client-side deposit action")), st)
  /\ tool_execute ai js withdraw_from_position args st
     = (Ok (OutAction false (lit "Use client-side withdraw action")), st).
Proof. split; reflexivity. Qed.

(** Every model session the handler opens offers the eight tools, the two
    mutating ones among them. *)
Lemma session_offers_catalogue ai js apiKey body session :
  handler ai js apiKey body = Ok (StreamTextResponse session) ->
  tools session = tool_catalogue
  /\ In execute_deposit (tools session)
  /\ In withdraw_from_position (tools session).
Proof.
  intros Hsession.
  assert (Htools : tools session = tool_catalogue).
  { unfold handler, try_catch in Hsession.
    destruct body; try discriminate;
      (destruct (negb (truthy _) || negb (isArray _)); [discriminate|]);
      (destruct (hasApiKey apiKey); cbn [negb] in Hsession;
       [|rewrite demoPath_response in Hsession;
         destruct (demoText _ _ _ _ _); discriminate]);
      unfold livePath in Hsession;
      (destruct (systemPrompt _ _ _ _); cbn [mbind result_bind] in Hsession;
       [|discriminate]);
      (destruct (convertToCoreMessages _ _); cbn [mbind result_bind] in Hsession;
       [|discriminate]);
      injection Hsession as <-; reflexivity. }
  rewrite Htools. unfold tool_catalogue. cbn [In]. tauto.
Qed.

(** ** The rendered text *)

Lemma slice_head {A} (s : list A) n :
  slice s 0 (Some (Z.of_nat n)) = take n s.
Proof.
  unfold slice, clamp_index. simpl.
  destruct (Z.ltb_spec (Z.of_nat n) 0) as [Hneg|_]; [lia|].
  rewrite Nat2Z.id, drop_0, Nat.sub_0_r.
  destruct (Nat.le_ge_cases n (length s)) as [Hle|Hge].
  - rewrite Nat.min_l by assumption. reflexivity.
  - rewrite Nat.min_r by assumption. rewrite !take_ge by lia. reflexivity.
Qed.

Lemma slice_tail {A} (s : list A) n :
  (0 < n)%nat -> (n <= length s)%nat ->
  slice s (- Z.of_nat n) None = drop (length s - n) s.
Proof.
  intros Hpos Hle. unfold slice, clamp_index.
  destruct (Z.ltb_spec (- Z.of_nat n) 0) as [_|Hge]; [|lia].
  replace (Z.to_nat (Z.max (Z.of_nat (length s) + - Z.of_nat n) 0))
    with (length s - n)%nat by lia.
  apply take_ge. rewrite length_drop. lia.
Qed.

(** C5 (amended): an address of at most 10 code units is rendered unchanged;
    a longer one is rendered as its first 6 code units, three full stops
    ["..."], and its last 4 code units. *)
Theorem formatAddress_abbreviates (address : jsstring) :
  ((length address <= 10)%nat -> formatAddress address = address)
  /\ ((10 < length address)%nat ->
        formatAddress address
        = take 6 address ++ lit "..." ++ drop (length address - 4) address).
Proof.
  unfold formatAddress. split; intros Hlen.
  - destruct (Nat.ltb_spec 10 (length address)) as [Hgt|_]; [lia | reflexivity].
  - destruct (Nat.ltb_spec 10 (length address)) as [_|Hle]; [|lia].
    change 6%Z with (Z.of_nat 6). change (-4)%Z with (- Z.of_nat 4)%Z.
    rewrite (slice_head address 6), (slice_tail address 4) by lia. reflexivity.
Qed.

Lemma formatAddress_abbreviates_witness :
  formatAddress (lit "0x1234") = lit "0x1234"
  /\ formatAddress (lit "0xABCDEF1234567890") = lit "0xABCD...7890".
Proof.
  split.
  - apply (formatAddress_abbreviates (lit "0x1234")). vm_compute. lia.
  - apply (formatAddress_abbreviates (lit "0xABCDEF1234567890")). vm_compute. lia.
Defined.

(** C5 as stated fails: the address of the specification's example is
    rendered with three full stops, not with the ellipsis character. *)
Lemma formatAddress_has_no_ellipsis_character :
  formatAddress (lit "0xABCDEF1234567890") = lit "0xABCD...7890"
  /\ formatAddress (lit "0xABCDEF1234567890") <> lit "0xABCD" ++ ellipsis ++ lit "7890".
Proof. split; [reflexivity | discriminate]. Qed.

Section TextFacts.
Context (ai : AiTools) (js : Platform).

(** Without a truthy wallet address the text is the fixed generic one, once
    the domain functions have returned. *)
Lemma demoText_no_wallet walletAddress mockBalances positions :
  truthy walletAddress = false ->
  demoText ai js walletAddress mockBalances positions =
    (_ ← totalPositionsValue js (array_or_empty positions);
     _ ← executeGetWalletBalances ai (VArr (array_or_empty mockBalances));
     _ ← executeFindYieldStrategies ai (strategyQuery (array_or_empty mockBalances));
     Ok (demo_intro ++ demo_generic ++ demo_closing)).
Proof.
  intros Hfalsy. unfold demoText. rewrite Hfalsy.
  destruct (totalPositionsValue _ _); cbn; [|reflexivity].
  destruct (executeGetWalletBalances _ _); cbn; [|reflexivity].
  destruct (executeFindYieldStrategies _ _); cbn; [|reflexivity].
  rewrite <- app_assoc. reflexivity.
Qed.

Lemma demoText_no_wallet_text walletAddress mockBalances positions text :
  truthy walletAddress = false ->
  demoText ai js walletAddress mockBalances positions = Ok text ->
  text = demo_intro ++ demo_generic ++ demo_closing.
Proof.
  intros Hfalsy. rewrite (demoText_no_wallet _ _ _ Hfalsy).
  destruct (totalPositionsValue _ _); cbn; [|discriminate].
  destruct (executeGetWalletBalances _ _); cbn; [|discriminate].
  destruct (executeFindYieldStrategies _ _); cbn; [|discriminate].
  congruence.
Qed.
End TextFacts.




(** ** Facts on machine numbers *)

Module FloatOrderFacts.
Import FloatOrder.

Lemma digits2_pos_bounds m :
  (2 ^ (Z.pos (digits2_pos m) - 1) <= Z.pos m < 2 ^ Z.pos (digits2_pos m))%Z.
Proof.
  induction m as [m IH|m IH|]; simpl digits2_pos.
  - rewrite Pos2Z.inj_succ.
    replace (Z.succ (Z.pos (digits2_pos m)) - 1)%Z with (Z.succ (Z.pos (digits2_pos m) - 1))%Z by lia.
    rewrite !Z.pow_succ_r by lia. lia.
  - rewrite Pos2Z.inj_succ.
    replace (Z.succ (Z.pos (digits2_pos m)) - 1)%Z with (Z.succ (Z.pos (digits2_pos m) - 1))%Z by lia.
    rewrite !Z.pow_succ_r by lia. lia.
  - simpl. lia.
Qed.

Lemma bounded_facts m e :
  bounded prec emax m e = true ->
  (emin <= e <= emax - prec)%Z
  /\ (Z.pos (digits2_pos m) <= prec)%Z
  /\ (emin < e -> Z.pos (digits2_pos m) = prec)%Z.
Proof.
  unfold bounded, canonical_mantissa, fexp. fold emin.
  intros H. apply andb_prop in H as [Hc Hb].
  apply Z.eqb_eq in Hc. apply Z.leb_le in Hb. lia.
Qed.

Lemma units_lt_exponent m1 e1 m2 e2 :
  bounded prec emax m1 e1 = true -> bounded prec emax m2 e2 = true ->
  (e1 < e2)%Z ->
  (Z.pos m1 * 2 ^ (e1 - emin) < Z.pos m2 * 2 ^ (e2 - emin))%Z.
Proof.
  intros H1 H2 Hlt.
  apply bounded_facts in H1 as (He1 & Hd1 & _).
  apply bounded_facts in H2 as (He2 & _ & Hd2).
  specialize (Hd2 ltac:(lia)).
  pose proof (digits2_pos_bounds m1) as [_ Hm1].
  pose proof (digits2_pos_bounds m2) as [Hm2 _].
  rewrite Hd2 in Hm2.
  assert (Hp : (2 ^ Z.pos (digits2_pos m1) <= 2 ^ prec)%Z)
    by (apply Z.pow_le_mono_r; lia).
  replace (e2 - emin)%Z with ((e2 - e1 - 1) + 1 + (e1 - emin))%Z by lia.
  rewrite !Z.pow_add_r by lia.
  assert (Hq : (0 < 2 ^ (e1 - emin))%Z) by (apply Z.pow_pos_nonneg; lia).
  assert (Hr : (1 <= 2 ^ (e2 - e1 - 1))%Z).
  { change 1%Z with (2 ^ 0)%Z at 1. apply Z.pow_le_mono_r; lia. }
  replace (2 ^ prec)%Z with (2 ^ (prec - 1) * 2)%Z in Hp by reflexivity.
  change (2 ^ 1)%Z with 2%Z.
  rewrite Z.mul_assoc. apply Z.mul_lt_mono_pos_r; [assumption|].
  generalize dependent (2 ^ (e2 - e1 - 1))%Z. intros R HR.
  generalize dependent (2 ^ (prec - 1))%Z. intros P HP1 HP2.
  nia.
Qed.

#[local] Arguments Z.compare : simpl never.
#[local] Arguments Z.mul : simpl never.
#[local] Arguments Z.pow : simpl never.
#[local] Arguments Z.opp : simpl never.
#[local] Arguments Z.sub : simpl never.
#[local] Arguments Z.add : simpl never.

Lemma compare_finite_units x y :
  valid_binary x = true -> valid_binary y = true ->
  is_finite x = true -> is_finite y = true ->
  SFcompare x y = Some (units x ?= units y)%Z.
Proof.
  intros Vx Vy Fx Fy.
  destruct x as [sx| | |sx mx ex], y as [sy| | |sy my ey];
    try discriminate; simpl in *.
  - reflexivity.
  - assert (0 < Z.pos my * 2 ^ (ey - emin))%Z
      by (apply Z.mul_pos_pos; [lia | apply Z.pow_pos_nonneg; [lia | apply bounded_facts in Vy; lia]]).
    destruct sy; simpl; f_equal; symmetry; [apply Z.compare_gt_iff | apply Z.compare_lt_iff]; lia.
  - assert (0 < Z.pos mx * 2 ^ (ex - emin))%Z
      by (apply Z.mul_pos_pos; [lia | apply Z.pow_pos_nonneg; [lia | apply bounded_facts in Vx; lia]]).
    destruct sx; simpl; f_equal; symmetry; [apply Z.compare_lt_iff | apply Z.compare_gt_iff]; lia.
  - assert (Hx : (0 < Z.pos mx * 2 ^ (ex - emin))%Z)
      by (apply Z.mul_pos_pos; [lia | apply Z.pow_pos_nonneg; [lia | apply bounded_facts in Vx; lia]]).
    assert (Hy : (0 < Z.pos my * 2 ^ (ey - emin))%Z)
      by (apply Z.mul_pos_pos; [lia | apply Z.pow_pos_nonneg; [lia | apply bounded_facts in Vy; lia]]).
    assert (Hlt : forall m1 e1 m2 e2, bounded prec emax m1 e1 = true ->
              bounded prec emax m2 e2 = true -> (e1 < e2)%Z ->
              (Z.pos m1 * 2 ^ (e1 - emin) < Z.pos m2 * 2 ^ (e2 - emin))%Z)
      by exact units_lt_exponent.
    assert (Heq : ex = ey ->
              (Z.pos mx * 2 ^ (ex - emin) ?= Z.pos my * 2 ^ (ey - emin))%Z
              = Pos.compare_cont Eq mx my).
    { intros <-. change (Pos.compare_cont Eq mx my) with (Pos.compare mx my).
      rewrite Pos2Z.inj_compare. symmetry. apply Zmult_compare_compat_r.
      apply Z.lt_gt. apply Z.pow_pos_nonneg; [lia | apply bounded_facts in Vx; lia]. }
    f_equal.
    destruct sx, sy; simpl.
    + rewrite Z.compare_opp.
      destruct (Z.compare_spec ex ey) as [He|He|He].
      * rewrite <- (Heq He). symmetry. apply Z.compare_antisym.
      * symmetry. apply Z.compare_gt_iff. apply Hlt; assumption.
      * symmetry. apply Z.compare_lt_iff. apply Hlt; assumption.
    + symmetry. apply Z.compare_lt_iff. lia.
    + symmetry. apply Z.compare_gt_iff. lia.
    + destruct (Z.compare_spec ex ey) as [He|He|He].
      * rewrite (Heq He). reflexivity.
      * symmetry. apply Z.compare_lt_iff. apply Hlt; assumption.
      * symmetry. apply Z.compare_gt_iff. apply Hlt; assumption.
Qed.

(** *** Rounding keeps the sign *)

Lemma shr_m_shr_1 mrs :
  (0 <= shr_m mrs)%Z -> shr_m (shr_1 mrs) = (shr_m mrs / 2)%Z.
Proof.
  destruct mrs as [m r s]. cbn [shr_m]. intros Hm.
  destruct m as [|[p|p|]|p]; cbn [shr_1 shr_m]; try lia.
  - reflexivity.
  - change (Z.pos p~1) with (2 * Z.pos p + 1)%Z.
    apply Z.div_unique with (r := 1%Z); lia.
  - change (Z.pos p~0) with (2 * Z.pos p)%Z.
    apply Z.div_unique with (r := 0%Z); lia.
  - reflexivity.
Qed.

Lemma shr_m_iter_pos p : forall mrs,
  (0 <= shr_m mrs)%Z ->
  shr_m (SpecFloat.iter_pos shr_1 p mrs) = (shr_m mrs / 2 ^ Z.pos p)%Z.
Proof.
  assert (Hpos : forall b, (0 < 2 ^ Z.pos b)%Z) by (intros b; apply Z.pow_pos_nonneg; lia).
  assert (Hnn : forall a b, (0 <= a)%Z -> (0 <= a / 2 ^ Z.pos b)%Z).
  { intros a b Ha. apply Z.div_pos; [assumption | apply Hpos]. }
  induction p as [p IH|p IH|]; intros mrs Hm; cbn [SpecFloat.iter_pos].
  - assert (H1 : (0 <= shr_m (shr_1 mrs))%Z)
      by (rewrite shr_m_shr_1 by assumption; apply Z.div_pos; lia).
    assert (H2 : (0 <= shr_m (SpecFloat.iter_pos shr_1 p (shr_1 mrs)))%Z)
      by (rewrite IH by assumption; apply Hnn; assumption).
    rewrite (IH _ H2), (IH _ H1), shr_m_shr_1 by assumption.
    pose proof (Hpos p) as Hp.
    rewrite !Z.div_div by lia. f_equal.
    rewrite Pos2Z.inj_xI, Z.pow_add_r, <- Z.pow_twice_r by lia.
    change (2 ^ 1)%Z with 2%Z. lia.
  - assert (H1 : (0 <= shr_m (SpecFloat.iter_pos shr_1 p mrs))%Z)
      by (rewrite IH by assumption; apply Hnn; assumption).
    rewrite (IH _ H1), (IH _ Hm).
    pose proof (Hpos p) as Hp.
    rewrite Z.div_div by lia. f_equal.
    rewrite Pos2Z.inj_xO, <- Z.pow_twice_r. reflexivity.
  - rewrite shr_m_shr_1 by assumption. reflexivity.
Qed.

Lemma shr_fexp_positive m e l :
  (emin <= e)%Z ->
  (0 < shr_m (fst (shr_fexp prec emax (Z.pos m) e l)))%Z
  /\ (emin <= snd (shr_fexp prec emax (Z.pos m) e l))%Z.
Proof.
  intros He. unfold shr_fexp, shr, fexp. fold emin. cbn [Zdigits2].
  assert (Hm : shr_m (shr_record_of_loc (Z.pos m) l) = Z.pos m)
    by (destruct l as [|[]]; reflexivity).
  destruct (Z.max (Z.pos (digits2_pos m) + e - prec) emin - e)%Z as [|p|p] eqn:Hn;
    cbn [fst snd]; rewrite ?Hm; try (split; lia).
  rewrite shr_m_iter_pos by (rewrite Hm; lia). rewrite Hm. split; [|lia].
  apply Z.div_str_pos. split; [apply Z.pow_pos_nonneg; lia|].
  pose proof (digits2_pos_bounds m) as [Hlow _].
  eapply Z.le_trans; [|exact Hlow].
  apply Z.pow_le_mono_r; [lia|]. unfold prec in *. lia.
Qed.

Lemma binary_round_aux_signed s m e l :
  (emin <= e)%Z -> signed s (binary_round_aux prec emax s (Z.pos m) e l).
Proof.
  intros He. unfold binary_round_aux.
  destruct (shr_fexp_positive m e l He) as [Hm1 He1].
  destruct (shr_fexp prec emax (Z.pos m) e l) as [mrs1 e1]. cbn [fst snd] in *.
  assert (Hr : (0 < round_nearest_even (shr_m mrs1) (loc_of_shr_record mrs1))%Z).
  { unfold round_nearest_even.
    destruct (loc_of_shr_record mrs1) as [|[]]; try lia.
    destruct (Z.even (shr_m mrs1)); lia. }
  destruct (round_nearest_even (shr_m mrs1) (loc_of_shr_record mrs1)) as [|m2|m2];
    try lia.
  destruct (shr_fexp_positive m2 e1 loc_Exact He1) as [Hm2 _].
  destruct (shr_fexp prec emax (Z.pos m2) e1 loc_Exact) as [mrs2 e2]. cbn [fst snd] in *.
  destruct (shr_m mrs2) as [|m3|m3]; try lia.
  destruct (e2 <=? emax - prec)%Z; reflexivity.
Qed.

Lemma binary_round_signed s m e :
  (emin <= e)%Z -> signed s (binary_round prec emax s m e).
Proof.
  intros He. unfold binary_round, shl_align, fexp. fold emin.
  destruct (Z.max (Z.pos (digits2_pos m) + e - prec) emin - e)%Z eqn:Hn;
    apply binary_round_aux_signed; lia.
Qed.

Lemma binary_normalize_sign d e :
  (emin <= e)%Z ->
  SFltb (S754_zero false) (binary_normalize prec emax d e false) = (0 <? d)%Z.
Proof.
  intros He. destruct d as [|m|m]; cbn [binary_normalize].
  - reflexivity.
  - pose proof (binary_round_signed false m e He) as Hs.
    destruct (binary_round prec emax false m e); cbn in Hs; try contradiction;
      subst; reflexivity.
  - pose proof (binary_round_signed true m e He) as Hs.
    destruct (binary_round prec emax true m e); cbn in Hs; try contradiction;
      subst; reflexivity.
Qed.

(** *** Order of the numbers other than NaN *)

Ltac by_order :=
  match goal with
  | |- (?a ?= ?b)%Z = Lt => change (a < b)%Z
  | |- (?a ?= ?b)%Z = Gt => change (a > b)%Z
  | |- (?a ?= ?b)%Z = Eq => apply Z.compare_eq_iff
  end; lia.

Lemma units_bound x :
  valid_binary x = true -> (- 2 ^ (emax - emin) < units x < 2 ^ (emax - emin))%Z.
Proof.
  assert (Hbig : (0 < 2 ^ (emax - emin))%Z) by reflexivity.
  destruct x as [s|s| |s m e]; cbn [units valid_binary]; intros V; try lia.
  apply bounded_facts in V as (He & Hd & _).
  pose proof (digits2_pos_bounds m) as [_ Hm].
  assert (Hp : (2 ^ Z.pos (digits2_pos m) <= 2 ^ prec)%Z)
    by (apply Z.pow_le_mono_r; lia).
  assert (Hq : (0 < 2 ^ (e - emin) <= 2 ^ (emax - prec - emin))%Z)
    by (split; [apply Z.pow_pos_nonneg; lia | apply Z.pow_le_mono_r; lia]).
  assert (Hprod : (Z.pos m * 2 ^ (e - emin) < 2 ^ prec * 2 ^ (emax - prec - emin))%Z) by nia.
  replace (2 ^ prec * 2 ^ (emax - prec - emin))%Z with (2 ^ (emax - emin))%Z in Hprod
    by reflexivity.
  destruct s; cbn [cond_Zopp]; lia.
Qed.

Lemma compare_spec_key x y :
  valid_binary x = true -> valid_binary y = true ->
  x <> S754_nan -> y <> S754_nan ->
  SFcompare x y = Some (spec_key x ?= spec_key y)%Z.
Proof.
  intros Vx Vy Nx Ny.
  assert (Hbig : (0 < 2 ^ (emax - emin))%Z) by reflexivity.
  destruct (is_finite x) eqn:Fx, (is_finite y) eqn:Fy.
  - rewrite (compare_finite_units x y) by assumption.
    destruct x, y; try discriminate; reflexivity.
  - pose proof (units_bound x Vx) as Hb.
    destruct y as [| sy | |]; try discriminate; try congruence.
    assert (Hx : spec_key x = units x) by (destruct x; try discriminate; reflexivity).
    rewrite Hx. cbn [spec_key].
    destruct x as [sx| | |sx mx ex]; try discriminate; cbn [SFcompare];
      destruct sy; cbn [cond_Zopp]; f_equal; symmetry; by_order.
  - pose proof (units_bound y Vy) as Hb.
    destruct x as [| sx | |]; try discriminate; try congruence.
    assert (Hy : spec_key y = units y) by (destruct y; try discriminate; reflexivity).
    rewrite Hy. cbn [spec_key].
    destruct y as [sy| | |sy my ey]; try discriminate; cbn [SFcompare];
      destruct sx; cbn [cond_Zopp]; f_equal; symmetry; by_order.
  - destruct x as [| sx | |], y as [| sy | |]; try discriminate; try congruence.
    cbn [SFcompare spec_key].
    destruct sx, sy; cbn [cond_Zopp]; f_equal; symmetry; by_order.
Qed.

Lemma shl_align_value m e e' :
  (e' <= e)%Z -> Z.pos (fst (shl_align m e e')) = (Z.pos m * 2 ^ (e - e'))%Z.
Proof.
  intros Hle. unfold shl_align.
  destruct (e' - e)%Z as [|d|d] eqn:Hd; cbn [fst]; try lia.
  - replace (e - e')%Z with 0%Z by lia. lia.
  - replace (e - e')%Z with (Z.pos d) by lia.
    clear. induction d as [|d IH] using Pos.peano_ind.
    + change (Z.pos m~0 = Z.pos m * 2)%Z. rewrite Pos2Z.inj_xO. ring.
    + rewrite Pos.iter_succ, Pos2Z.inj_xO, IH, Pos2Z.inj_succ, Z.pow_succ_r by lia. ring.
Qed.

Lemma SFsub_sign x y :
  valid_binary x = true -> valid_binary y = true ->
  x <> S754_nan -> y <> S754_nan ->
  SFltb (S754_zero false) (SF64sub y x) = SFltb x y.
Proof.
  intros Vx Vy Nx Ny.
  destruct x as [sx|sx| |sx mx ex], y as [sy|sy| |sy my ey]; try congruence;
    try (destruct sx, sy; reflexivity); try (destruct sx; reflexivity);
    try (destruct sy; reflexivity).
  unfold SF64sub, SFsub.
  pose proof (bounded_facts _ _ Vx) as (Hex & _).
  pose proof (bounded_facts _ _ Vy) as (Hey & _).
  rewrite binary_normalize_sign by (fold emin; lia).
  unfold SFltb.
  rewrite (compare_finite_units (S754_finite sx mx ex) (S754_finite sy my ey))
    by (assumption || reflexivity).
  rewrite !shl_align_value by lia. cbn [units].
  set (ez := Z.min ey ex).
  assert (Hx : (Z.pos mx * 2 ^ (ex - emin) = Z.pos mx * 2 ^ (ex - ez) * 2 ^ (ez - emin))%Z).
  { rewrite <- Z.mul_assoc, <- Z.pow_add_r by lia. do 2 f_equal. lia. }
  assert (Hy : (Z.pos my * 2 ^ (ey - emin) = Z.pos my * 2 ^ (ey - ez) * 2 ^ (ez - emin))%Z).
  { rewrite <- Z.mul_assoc, <- Z.pow_add_r by lia. do 2 f_equal. lia. }
  rewrite Hx, Hy.
  assert (Hs : (0 < 2 ^ (ez - emin))%Z) by (apply Z.pow_pos_nonneg; lia).
  generalize dependent (2 ^ (ez - emin))%Z. intros S _ _ HS.
  generalize (Z.pos mx * 2 ^ (ex - ez))%Z (Z.pos my * 2 ^ (ey - ez))%Z.
  intros X Y.
  assert (HX : forall b, cond_Zopp b (X * S) = (cond_Zopp b X * S)%Z)
    by (intros []; cbn [cond_Zopp]; lia).
  assert (HY : forall b, cond_Zopp b (Y * S) = (cond_Zopp b Y * S)%Z)
    by (intros []; cbn [cond_Zopp]; lia).
  rewrite HX, HY.
  generalize (cond_Zopp sx X) (cond_Zopp sy Y). intros X' Y'.
  destruct (Z.ltb_spec 0 (Y' - X')) as [Hpos|Hneg];
    destruct (Z.compare_spec (X' * S) (Y' * S)) as [Hc|Hc|Hc]; try reflexivity; nia.
Qed.

(** *** The same facts on machine numbers *)

Lemma not_nan_spec a : is_nan a = false -> Prim2SF a <> S754_nan.
Proof.
  unfold is_nan. rewrite FloatAxioms.eqb_spec. intros H Hn. rewrite Hn in H. discriminate.
Qed.

Lemma compare_order_key a b :
  is_nan a = false -> is_nan b = false ->
  SFcompare (Prim2SF a) (Prim2SF b) = Some (order_key a ?= order_key b)%Z.
Proof.
  intros Ha Hb. apply compare_spec_key;
    auto using Prim2SF_valid, not_nan_spec.
Qed.

Lemma ltb_order_key a b :
  is_nan a = false -> is_nan b = false ->
  (a <? b)%float = (order_key a <? order_key b)%Z.
Proof.
  intros Ha Hb. rewrite FloatAxioms.ltb_spec. unfold SFltb, Z.ltb.
  rewrite (compare_order_key a b Ha Hb). reflexivity.
Qed.

Lemma leb_order_key a b :
  is_nan a = false -> is_nan b = false ->
  (a <=? b)%float = (order_key a <=? order_key b)%Z.
Proof.
  intros Ha Hb. rewrite FloatAxioms.leb_spec. unfold SFleb, Z.leb.
  rewrite (compare_order_key a b Ha Hb).
  destruct (order_key a ?= order_key b)%Z; reflexivity.
Qed.

Lemma eqb_order_key a b :
  is_nan a = false -> is_nan b = false ->
  (a =? b)%float = (order_key a =? order_key b)%Z.
Proof.
  intros Ha Hb. rewrite FloatAxioms.eqb_spec, Z.eqb_compare. unfold SFeqb.
  rewrite (compare_order_key a b Ha Hb).
  destruct (order_key a ?= order_key b)%Z; reflexivity.
Qed.

(** The sign of a difference is the order of its operands: no difference of
    two distinct numbers rounds to zero. *)
Lemma sub_positive_order_key a b :
  is_nan a = false -> is_nan b = false ->
  (0 <? b - a)%float = (order_key a <? order_key b)%Z.
Proof.
  intros Ha Hb. rewrite <- (ltb_order_key a b Ha Hb).
  rewrite !FloatAxioms.ltb_spec, FloatAxioms.sub_spec.
  change (Prim2SF 0) with (S754_zero false).
  apply SFsub_sign; auto using Prim2SF_valid, not_nan_spec.
Qed.

End FloatOrderFacts.

(** ** Sorting by a numeric key *)

Section SortFacts.
Import FloatOrder FloatOrderFacts.
Context {A : Type} (key : A -> float).

(** The comparator [(a, b) => key(b) - key(a)]. *)
Let cmp (a b : A) : float := (key b - key a)%float.
Let rank (a : A) : Z := order_key (key a).
Let valid (a : A) : Prop := is_nan (key a) = false.

Lemma cmp_positive x y :
  valid x -> valid y -> (0 <? cmp x y)%float = (rank x <? rank y)%Z.
Proof. intros Hx Hy. apply sub_positive_order_key; assumption. Qed.

Lemma insert_sorted_Permutation x l :
  Permutation (insert_sorted cmp x l) (x :: l).
Proof.
  induction l as [|y rest IH]; cbn [insert_sorted]; [reflexivity|].
  destruct (0 <? cmp x y)%float; [|reflexivity].
  rewrite IH. apply perm_swap.
Qed.

Lemma sort_Permutation l : Permutation (sort cmp l) l.
Proof.
  induction l as [|x l IH]; [reflexivity|].
  change (sort cmp (x :: l)) with (insert_sorted cmp x (sort cmp l)).
  rewrite insert_sorted_Permutation, IH. reflexivity.
Qed.

Lemma sort_valid l : List.Forall valid l -> List.Forall valid (sort cmp l).
Proof.
  intros Hl. apply List.Forall_forall. intros a Ha.
  apply (proj1 (List.Forall_forall _ _) Hl).
  apply (Permutation_in _ (sort_Permutation l)). assumption.
Qed.

Lemma insert_sorted_descending x l :
  valid x -> List.Forall valid l ->
  StronglySorted (fun a b => (rank b <= rank a)%Z) l ->
  StronglySorted (fun a b => (rank b <= rank a)%Z) (insert_sorted cmp x l).
Proof.
  intros Hx. induction l as [|y rest IH]; intros Hl Hs; cbn [insert_sorted].
  - constructor; constructor.
  - apply List.Forall_cons_iff in Hl as [Hy Hrest].
    apply StronglySorted_inv in Hs as [Hs Hall].
    rewrite (cmp_positive x y Hx Hy).
    destruct (Z.ltb_spec (rank x) (rank y)) as [Hlt|Hge].
    + constructor; [apply IH; assumption|].
      apply List.Forall_forall. intros z Hz.
      apply (Permutation_in _ (insert_sorted_Permutation x rest)) in Hz.
      destruct Hz as [<-|Hz]; [lia|].
      apply (proj1 (List.Forall_forall _ _) Hall z Hz).
    + constructor; [constructor; assumption|].
      constructor; [assumption|].
      apply List.Forall_forall. intros z Hz.
      pose proof (proj1 (List.Forall_forall _ _) Hall z Hz) as Hzy.
      cbv beta in Hzy. lia.
Qed.

Lemma sort_descending l :
  List.Forall valid l ->
  StronglySorted (fun a b => (rank b <= rank a)%Z) (sort cmp l).
Proof.
  induction l as [|x l IH]; intros Hl; [constructor|].
  apply List.Forall_cons_iff in Hl as [Hx Hl].
  change (sort cmp (x :: l)) with (insert_sorted cmp x (sort cmp l)).
  apply insert_sorted_descending; auto using sort_valid.
Qed.

(** An element only moves behind elements of strictly larger key, so a
    selection of elements with one and the same key keeps its order. *)
Lemma filter_insert_sorted (p : A -> bool) x l :
  valid x -> List.Forall valid l ->
  (forall a b, p a = true -> p b = true -> rank a = rank b) ->
  List.filter p (insert_sorted cmp x l) = List.filter p (x :: l).
Proof.
  intros Hx Hl Hp. induction l as [|y rest IH]; cbn [insert_sorted]; [reflexivity|].
  apply List.Forall_cons_iff in Hl as [Hy Hrest].
  rewrite (cmp_positive x y Hx Hy).
  destruct (Z.ltb_spec (rank x) (rank y)) as [Hlt|Hge]; [|reflexivity].
  cbn [List.filter]. rewrite (IH Hrest). cbn [List.filter].
  destruct (p x) eqn:Hpx, (p y) eqn:Hpy; try reflexivity.
  specialize (Hp x y Hpx Hpy). lia.
Qed.

Lemma sort_stable (p : A -> bool) l :
  List.Forall valid l ->
  (forall a b, p a = true -> p b = true -> rank a = rank b) ->
  List.filter p (sort cmp l) = List.filter p l.
Proof.
  intros Hl Hp. induction l as [|x l IH]; [reflexivity|].
  apply List.Forall_cons_iff in Hl as [Hx Hl].
  change (sort cmp (x :: l)) with (insert_sorted cmp x (sort cmp l)).
  rewrite filter_insert_sorted by auto using sort_valid.
  cbn [List.filter]. rewrite (IH Hl). reflexivity.
Qed.
Lemma descending_rank l :
  List.Forall valid l ->
  StronglySorted (fun a b => (key b <=? key a)%float = true) l <->
  StronglySorted (fun a b => (rank b <= rank a)%Z) l.
Proof.
  induction l as [|a l IH]; intros Hl; [split; constructor|].
  apply List.Forall_cons_iff in Hl as [Ha Hl].
  assert (Hall : List.Forall (fun b => (key b <=? key a)%float = true) l
                 <-> List.Forall (fun b => (rank b <= rank a)%Z) l).
  { rewrite !List.Forall_forall. split; intros H b Hb; specialize (H b Hb);
      pose proof (proj1 (List.Forall_forall _ _) Hl b Hb) as Hvb;
      unfold rank, valid in *.
    - apply Z.leb_le. rewrite <- leb_order_key by assumption. exact H.
    - rewrite leb_order_key by assumption. apply Z.leb_le. exact H. }
  split; intros Hs; apply StronglySorted_inv in Hs as [Hs Hf]; constructor;
    solve [apply (IH Hl); exact Hs | apply Hall; exact Hf].
Qed.

(** Selecting by rank is selecting by a value of the key. *)
Lemma same_rank_same_key c :
  exists v, forall a, valid a -> (rank a =? rank c)%Z = (key a =? v)%float.
Proof.
  destruct (is_nan (key c)) eqn:Hc.
  - exists 0%float. intros a Ha.
    rewrite eqb_order_key by (assumption || reflexivity).
    unfold rank at 2, order_key.
    replace (Prim2SF (key c)) with S754_nan; [reflexivity|].
    symmetry. unfold is_nan in Hc. apply negb_true_iff in Hc.
    rewrite FloatAxioms.eqb_spec in Hc. unfold SFeqb in Hc.
    destruct (Prim2SF (key c)) eqn:Hk; [| |reflexivity|];
      rewrite compare_spec_key in Hc
        by (try discriminate; rewrite <- Hk; apply Prim2SF_valid);
      rewrite Z.compare_refl in Hc; discriminate.
  - exists (key c). intros a Ha. symmetry. apply eqb_order_key; assumption.
Qed.

(** A descending list is determined by its selections of equal rank. *)
Lemma descending_stable_unique l1 : forall l2,
  StronglySorted (fun a b => (rank b <= rank a)%Z) l1 ->
  StronglySorted (fun a b => (rank b <= rank a)%Z) l2 ->
  (forall c, List.filter (fun a => (rank a =? rank c)%Z) l1
             = List.filter (fun a => (rank a =? rank c)%Z) l2) ->
  l1 = l2.
Proof.
  assert (Hhead : forall a t b u,
            StronglySorted (fun a b => (rank b <= rank a)%Z) (b :: u) ->
            List.filter (fun x => (rank x =? rank a)%Z) (a :: t)
            = List.filter (fun x => (rank x =? rank a)%Z) (b :: u) ->
            (rank a <= rank b)%Z).
  { intros a t b u Hs Hf. cbn [List.filter] in Hf. rewrite Z.eqb_refl in Hf.
    assert (Hin : In a (List.filter (fun x => (rank x =? rank a)%Z) (b :: u)))
      by (cbn [List.filter]; rewrite <- Hf; left; reflexivity).
    apply List.filter_In in Hin as [[<-|Hin] _]; [lia|].
    apply StronglySorted_inv in Hs as [_ Hall].
    apply (proj1 (List.Forall_forall _ _) Hall a Hin). }
  induction l1 as [|a t1 IH]; intros [|b t2] Hs1 Hs2 Hf.
  - reflexivity.
  - specialize (Hf b). cbn [List.filter] in Hf. rewrite Z.eqb_refl in Hf. discriminate.
  - specialize (Hf a). cbn [List.filter] in Hf. rewrite Z.eqb_refl in Hf. discriminate.
  - assert (Hab : rank a = rank b).
    { apply Z.le_antisymm.
      - apply (Hhead a t1 b t2 Hs2 (Hf a)).
      - apply (Hhead b t2 a t1 Hs1). symmetry. apply Hf. }
    pose proof (Hf a) as Hfa. cbn [List.filter] in Hfa.
    rewrite Z.eqb_refl in Hfa. rewrite <- Hab, Z.eqb_refl in Hfa.
    injection Hfa as <- Htail.
    f_equal. apply IH.
    + apply StronglySorted_inv in Hs1. tauto.
    + apply StronglySorted_inv in Hs2. tauto.
    + intros c. specialize (Hf c). cbn [List.filter] in Hf.
      destruct (rank a =? rank c)%Z; [injection Hf as Hf|]; exact Hf.
Qed.
End SortFacts.

(** Only NaN differs from itself. *)
Lemma is_nan_spec (a : float) : is_nan a = true <-> Prim2SF a = S754_nan.
Proof.
  unfold is_nan. rewrite FloatAxioms.eqb_spec. unfold SFeqb. split.
  - intros Hneq. destruct (Prim2SF a) eqn:Ha; [| |reflexivity|];
      rewrite FloatOrderFacts.compare_spec_key in Hneq
        by (try discriminate; rewrite <- Ha; apply Prim2SF_valid);
      rewrite Z.compare_refl in Hneq; discriminate.
  - intros ->. reflexivity.
Qed.

Lemma eqb_true_not_nan (a v : float) :
  (a =? v)%float = true -> is_nan a = false /\ is_nan v = false.
Proof.
  rewrite FloatAxioms.eqb_spec. unfold SFeqb. intros Heq.
  split; apply not_true_iff_false; intros Hnan; apply is_nan_spec in Hnan;
    rewrite Hnan in Heq; [|destruct (Prim2SF a)]; discriminate.
Qed.

Lemma eqb_same_order_key (a b v : float) :
  (a =? v)%float = true -> (b =? v)%float = true ->
  FloatOrder.order_key a = FloatOrder.order_key b.
Proof.
  intros Hav Hbv.
  destruct (eqb_true_not_nan a v Hav) as [Ha Hv].
  destruct (eqb_true_not_nan b v Hbv) as [Hb _].
  rewrite FloatOrderFacts.eqb_order_key in Hav, Hbv by assumption.
  apply Z.eqb_eq in Hav, Hbv. congruence.
Qed.

(** C7: when no APY is NaN, the suggested strategies are the first three
    entries (all of them when there are fewer) of the ranking of the returned
    strategies: the one rearrangement of them that is in descending order of
    APY and keeps strategies of equal APY in their returned order. *)
Theorem suggested_strategies_top_three (strategyResult : StrategiesResult) :
  List.Forall (fun s => is_nan (apy s) = false) (strategies strategyResult) ->
  exists ranked,
    Permutation ranked (strategies strategyResult)
    /\ descending_apy ranked
    /\ (forall v, with_apy v ranked = with_apy v (strategies strategyResult))
    /\ (forall other,
          Permutation other (strategies strategyResult) ->
          descending_apy other ->
          (forall v, with_apy v other = with_apy v (strategies strategyResult)) ->
          other = ranked)
    /\ suggestedStrategies strategyResult = take 3 ranked
    /\ length (suggestedStrategies strategyResult)
       = Nat.min 3 (length (strategies strategyResult)).
Proof.
  intros Hvalid.
  set (ranked := sort (fun a b => (apy b - apy a)%float) (strategies strategyResult)).
  assert (Hperm : Permutation ranked (strategies strategyResult))
    by apply (sort_Permutation apy).
  assert (Hranked : List.Forall (fun s => is_nan (apy s) = false) ranked)
    by apply (sort_valid apy _ Hvalid).
  pose proof (sort_descending apy _ Hvalid) as Hsorted. fold ranked in Hsorted.
  assert (Hstable : forall v, with_apy v ranked = with_apy v (strategies strategyResult)).
  { intros v. apply (sort_stable apy (fun s => (apy s =? v)%float)); [assumption|].
    intros a b Ha Hb. exact (eqb_same_order_key _ _ v Ha Hb). }
  exists ranked. split; [|split; [|split; [|split; [|split]]]].
  - exact Hperm.
  - apply (descending_rank apy); assumption.
  - exact Hstable.
  - intros other Hother Hdesc Hsame.
    assert (Hvother : List.Forall (fun s => is_nan (apy s) = false) other).
    { apply List.Forall_forall. intros a Ha.
      apply (proj1 (List.Forall_forall _ _) Hvalid).
      apply (Permutation_in _ Hother). assumption. }
    apply (descending_stable_unique apy).
    + apply (descending_rank apy); assumption.
    + exact Hsorted.
    + intros c. destruct (same_rank_same_key apy c) as [v Hv].
      rewrite (List.filter_ext_in _ (fun s => (apy s =? v)%float) other)
        by (intros a Ha; apply Hv; apply (proj1 (List.Forall_forall _ _) Hvother a Ha)).
      rewrite (List.filter_ext_in _ (fun s => (apy s =? v)%float) ranked)
        by (intros a Ha; apply Hv; apply (proj1 (List.Forall_forall _ _) Hranked a Ha)).
      change (with_apy v other = with_apy v ranked).
      rewrite Hsame, Hstable. reflexivity.
  - unfold suggestedStrategies. fold ranked. change 3%Z with (Z.of_nat 3).
    apply slice_head.
  - unfold suggestedStrategies. fold ranked. change 3%Z with (Z.of_nat 3).
    rewrite slice_head, length_take, (Permutation_length Hperm). reflexivity.
Qed.

Lemma suggested_strategies_top_three_witness :
  exists ranked,
    Permutation ranked Sample.catalogue
    /\ descending_apy ranked
    /\ (forall v, with_apy v ranked = with_apy v Sample.catalogue)
    /\ (forall other,
          Permutation other Sample.catalogue ->
          descending_apy other ->
          (forall v, with_apy v other = with_apy v Sample.catalogue) ->
          other = ranked)
    /\ suggestedStrategies {| strategies := Sample.catalogue |} = take 3 ranked
    /\ length (suggestedStrategies {| strategies := Sample.catalogue |}) = 3.
Proof.
  apply (suggested_strategies_top_three {| strategies := Sample.catalogue |}).
  repeat constructor.
Defined.

(** On the sample catalogue the two strategies at 4.5% keep their order, and
    the second of them is cut off. *)
Example suggested_strategies_sample :
  List.map name (suggestedStrategies {| strategies := Sample.catalogue |})
  = [lit "GMX GLP"; lit "Curve 3pool"; lit "Aave USDC Lending"].
Proof. vm_compute. reflexivity. Qed.

(** ** The position total *)

Section PositionFacts.
Context (ai : AiTools) (js : Platform).

Lemma Number_currentValue position :
  numeric_or_missing position ->
  Number js (or_else (get_opt position (lit "currentValue")) (VNum 0))
  = Ok (currentValue_of position).
Proof.
  unfold numeric_or_missing, currentValue_of, or_else.
  destruct (get_opt position (lit "currentValue")) as [| |b|n|s|items|fields];
    cbn [truthy]; intros H; try discriminate; try reflexivity.
  - subst. reflexivity.
  - destruct (negb (is_nan n) && negb (n =? 0)%float); reflexivity.
  - destruct s; [reflexivity | discriminate].
Qed.

Lemma reduce_positions positionsList : forall sum,
  List.Forall numeric_or_missing positionsList ->
  reduce
    (fun sum position =>
       n ← Number js (or_else (get_opt position (lit "currentValue")) (VNum 0));
       Ok (sum + n)%float)
    positionsList sum
  = Ok (foldl (fun sum position => (sum + currentValue_of position)%float) sum positionsList).
Proof.
  induction positionsList as [|position rest IH]; intros sum Hall; [reflexivity|].
  apply List.Forall_cons_iff in Hall as [Hp Hrest].
  cbn [reduce foldl]. rewrite (Number_currentValue position Hp).
  cbn [mbind result_bind]. apply IH. assumption.
Qed.

(** With a wallet address, the text is the sequence of the sections. *)
Lemma demoText_wallet_layout walletAddress mockBalances positions text :
  truthy walletAddress = true ->
  demoText ai js walletAddress mockBalances positions = Ok text ->
  exists total address balancesResult strategyResult,
    totalPositionsValue js (array_or_empty positions) = Ok total
    /\ addressText js walletAddress = Ok address
    /\ executeGetWalletBalances ai (VArr (array_or_empty mockBalances)) = Ok balancesResult
    /\ executeFindYieldStrategies ai (strategyQuery (array_or_empty mockBalances))
       = Ok strategyResult
    /\ text = demo_intro
              ++ (nl ++ nl ++ lit "Wallet: " ++ address)
              ++ (nl ++ lit "Total balance: " ++ formatUsd js (totalValueUSD balancesResult))
              ++ balancesSection js balancesResult
              ++ positionsSection js (array_or_empty positions) total
              ++ strategiesSection js (suggestedStrategies strategyResult)
              ++ demo_closing.
Proof.
  intros Htruthy. unfold demoText. rewrite Htruthy.
  destruct (totalPositionsValue _ _) as [total|]; cbn [mbind result_bind]; [|discriminate].
  destruct (executeGetWalletBalances _ _) as [balancesResult|];
    cbn [mbind result_bind]; [|discriminate].
  destruct (executeFindYieldStrategies _ _) as [strategyResult|];
    cbn [mbind result_bind]; [|discriminate].
  destruct (addressText _ _) as [address|]; cbn [mbind result_bind]; [|discriminate].
  intros [= <-]. exists total, address, balancesResult, strategyResult.
  repeat (split; [reflexivity|]).
  rewrite <- !app_assoc. reflexivity.
Qed.
(** The synthesizer returns a text whenever the two domain functions return,
    on a request whose wallet address is absent or a string and whose
    positions carry numbers. *)
Lemma demoText_returns walletAddress mockBalances positions balancesResult strategyResult :
  (truthy walletAddress = false \/ exists s, walletAddress = VStr s) ->
  List.Forall numeric_or_missing (array_or_empty positions) ->
  executeGetWalletBalances ai (VArr (array_or_empty mockBalances)) = Ok balancesResult ->
  executeFindYieldStrategies ai (strategyQuery (array_or_empty mockBalances))
  = Ok strategyResult ->
  exists text, demoText ai js walletAddress mockBalances positions = Ok text.
Proof.
  intros Hwallet Hpositions Hbalances Hstrategies. unfold demoText, totalPositionsValue.
  rewrite (reduce_positions _ _ Hpositions), Hbalances, Hstrategies.
  cbn [mbind result_bind].
  destruct (truthy walletAddress) eqn:Htruthy; [|eauto].
  destruct Hwallet as [Hfalsy|[s ->]]; [discriminate|].
  cbn [addressText mbind result_bind]. eauto.
Qed.
End PositionFacts.

(** C6 (amended): over a positions list in which every [currentValue] is a
    number or is missing, the total is the sum of the [currentValue]s, a
    missing one counting 0; the total of the empty list is 0; and when a
    wallet address is present and there is no position, the positions section
    of the rendered text is the line [Active positions: none yet.], between
    the balances and the suggested strategies. *)
Theorem position_total_and_empty_branch (ai : AiTools) (js : Platform) :
  (forall positionsList,
      List.Forall numeric_or_missing positionsList ->
      totalPositionsValue js positionsList = Ok (sum_of_currentValue positionsList))
  /\ totalPositionsValue js [] = Ok 0%float
  /\ (forall walletAddress mockBalances positions text,
        truthy walletAddress = true ->
        array_or_empty positions = [] ->
        demoText ai js walletAddress mockBalances positions = Ok text ->
        exists address balancesResult strategyResult,
          text = demo_intro
                 ++ (nl ++ nl ++ lit "Wallet: " ++ address)
                 ++ (nl ++ lit "Total balance: "
                        ++ formatUsd js (totalValueUSD balancesResult))
                 ++ balancesSection js balancesResult
                 ++ no_positions_line
                 ++ strategiesSection js (suggestedStrategies strategyResult)
                 ++ demo_closing).
Proof.
  split; [|split].
  - intros positionsList Hall. unfold totalPositionsValue, sum_of_currentValue.
    apply reduce_positions. assumption.
  - reflexivity.
  - intros walletAddress mockBalances positions text Htruthy Hempty Htext.
    destruct (demoText_wallet_layout ai js _ _ _ _ Htruthy Htext)
      as (total & address & balancesResult & strategyResult & _ & _ & _ & _ & ->).
    rewrite Hempty. exists address, balancesResult, strategyResult. reflexivity.
Qed.

Lemma position_total_and_empty_branch_witness :
  totalPositionsValue Sample.js
    [ VObj {[ lit "currentValue" := VNum 1250.5%float ]};
      VObj {[ lit "id" := VStr (lit "p2") ]};
      VNull;
      VObj {[ lit "currentValue" := VNum 49.5%float ]} ]
  = Ok 1300%float.
Proof.
  apply (position_total_and_empty_branch Sample.ai Sample.js).
  repeat constructor.
Defined.

(** C6 as stated fails: a [currentValue] that is not a number need not count
    0; the boolean [true] counts 1. *)
Lemma boolean_currentValue_counts_one :
  totalPositionsValue Sample.js [ VObj {[ lit "currentValue" := VBool true ]} ]
  = Ok 1%float
  /\ (1 =? 0)%float = false.
Proof. split; reflexivity. Qed.

(** ** The argument of the strategy search *)




(** ** The example of the specification, run *)

(** With the sample collaborators, the request with wallet
    [0xABCDEF1234567890], 100 USDC and no position is answered in Demo mode
    with this text. *)
Example specification_scenario :
  handler Sample.ai Sample.js None Sample.body_wallet
  = Ok (UIMessageStreamResponse (demo_frames (join nl
      [ lit "Demo mode: ANTHROPIC_API_KEY is not set, so responses are scripted.";
        [];
        lit "Wallet: 0xABCD...7890";
        lit "Total balance: $100.00";
        [];
        lit "Balances:";
        lit "- USDC: 100 (~$100.00)";
        [];
        lit "Active positions: none yet.";
        [];
        lit "Suggested strategies:";
        lit "- GMX GLP (GMX) " ++ strategy_separator ++ lit " 15.5% APY, High risk";
        lit "- Curve 3pool (Curve) " ++ strategy_separator ++ lit " 8.3% APY, Medium risk";
        lit "- Aave USDC Lending (Aave) " ++ strategy_separator ++ lit " 4.5% APY, Low risk";
        [];
        lit "This is a demo with simulated transactions. Always consider risks and impermanent loss." ]))).
Proof. vm_compute. reflexivity. Qed.

(** * Further properties of the handler *)

(** ** Failures *)

Lemma onError_status {A} (r : result A) (handler_ : thrown -> result A) e :
  (forall inner, exists message, handler_ inner = Throw (H3Error 500 message)) ->
  try_catch r handler_ = Throw e -> exists message, e = H3Error 500 message.
Proof.
  intros Hhandler. unfold try_catch. destruct r as [a|inner]; [discriminate|].
  destruct (Hhandler inner) as [message ->]. intros [= <-]. eauto.
Qed.

(** X1: whatever the request, the credential and the collaborators, an error
    that leaves the handler has status 500: the [catch] clause of lines
    224-230 re-raises every exception, the handler's own validation error
    included, as [createError({ statusCode: 500, ... })]. *)
Theorem handler_failure_status ai js apiKey body e :
  handler ai js apiKey body = Throw e ->
  exists message, e = H3Error 500 message.
Proof.
  unfold handler. apply onError_status.
  intros inner. exists (error_message inner). reflexivity.
Qed.

Lemma handler_failure_status_witness :
  handler (failing_balances (H3Error 404 (lit "No such wallet"))) Sample.js None
    Sample.body_wallet
  = Throw (H3Error 500 (lit "No such wallet"))
  /\ exists message, H3Error 500 (lit "No such wallet") = H3Error 500 message.
Proof.
  split; [reflexivity|].
  apply (handler_failure_status (failing_balances (H3Error 404 (lit "No such wallet")))
           Sample.js None Sample.body_wallet).
  reflexivity.
Defined.

(** X2: in Demo mode, when the balance aggregation throws, the handler fails
    with status 500 and the message of the exception when that is an
    [Error], and with ['Unknown error occurred'] when the thrown value is
    not an [Error]; no stream is produced. *)
Theorem balance_failure_reported ai js apiKey body total inner :
  isArray (get_opt body (lit "messages")) = true ->
  hasApiKey apiKey = false ->
  totalPositionsValue js (array_or_empty (get_opt body (lit "positions"))) = Ok total ->
  executeGetWalletBalances ai (VArr (array_or_empty (get_opt body (lit "mockBalances"))))
  = Throw inner ->
  handler ai js apiKey body
  = Throw (H3Error 500
             match inner with
             | H3Error _ message | JsError message => message
             | NonError _ => lit "Unknown error occurred"
             end).
Proof.
  intros Harr Hkey Htotal Hbalances.
  rewrite (handler_validated ai js apiKey body Harr), Hkey.
  unfold demoPath, demoText. rewrite Htotal, Hbalances. reflexivity.
Qed.

Lemma balance_failure_reported_witness :
  handler (failing_balances (JsError (lit "RPC unavailable"))) Sample.js None Sample.body_wallet
  = Throw (H3Error 500 (lit "RPC unavailable"))
  /\ handler (failing_balances (NonError (VStr (lit "boom")))) Sample.js None Sample.body_wallet
     = Throw (H3Error 500 (lit "Unknown error occurred")).
Proof.
  split.
  - apply (balance_failure_reported (failing_balances (JsError (lit "RPC unavailable")))
             Sample.js None Sample.body_wallet 0%float (JsError (lit "RPC unavailable")));
      reflexivity.
  - apply (balance_failure_reported (failing_balances (NonError (VStr (lit "boom"))))
             Sample.js None Sample.body_wallet 0%float (NonError (VStr (lit "boom"))));
      reflexivity.
Defined.

(** ** Address abbreviation *)

Lemma formatAddress_long (address : jsstring) :
  (10 < length address)%nat ->
  formatAddress address
  = take 6 address ++ lit "..." ++ drop (length address - 4) address.
Proof.
  intros Hlen. unfold formatAddress.
  destruct (Nat.ltb_spec 10 (length address)) as [_|Hle]; [|lia].
  change 6%Z with (Z.of_nat 6). change (-4)%Z with (- Z.of_nat 4)%Z.
  rewrite (slice_head address 6), (slice_tail address 4) by lia. reflexivity.
Qed.

Lemma formatAddress_short (address : jsstring) :
  (length address <= 10)%nat -> formatAddress address = address.
Proof.
  intros Hlen. unfold formatAddress.
  destruct (Nat.ltb_spec 10 (length address)) as [Hgt|_]; [lia | reflexivity].
Qed.

(** X3: a rendered address has at most 13 code units, and exactly 13 when
    the address has more than 10. *)
Theorem formatAddress_length (address : jsstring) :
  (length (formatAddress address) <= 13)%nat
  /\ ((10 < length address)%nat -> length (formatAddress address) = 13%nat).
Proof.
  assert (Hlong : (10 < length address)%nat -> length (formatAddress address) = 13%nat).
  { intros Hlen. rewrite (formatAddress_long address Hlen).
    rewrite !length_app, length_take, length_drop.
    change (length (lit "...")) with 3%nat. lia. }
  split; [|exact Hlong].
  destruct (Nat.le_gt_cases (length address) 10) as [Hle|Hgt].
  - rewrite (formatAddress_short address Hle). lia.
  - rewrite (Hlong Hgt). lia.
Qed.

Lemma formatAddress_length_witness :
  length (formatAddress (lit "0xABCDEF1234567890ABCDEF1234567890ABCDEF12")) = 13%nat.
Proof.
  apply (formatAddress_length (lit "0xABCDEF1234567890ABCDEF1234567890ABCDEF12")).
  vm_compute. lia.
Defined.

(** X4: abbreviating is idempotent: an abbreviated address, although longer
    than 10 code units, is abbreviated to itself. *)
Theorem formatAddress_idempotent (address : jsstring) :
  formatAddress (formatAddress address) = formatAddress address.
Proof.
  destruct (Nat.le_gt_cases (length address) 10) as [Hle|Hgt].
  - rewrite (formatAddress_short address Hle). apply formatAddress_short. assumption.
  - rewrite (formatAddress_long address Hgt).
    set (head_ := take 6 address). set (tail_ := drop (length address - 4) address).
    assert (Hhead : length head_ = 6%nat) by (unfold head_; rewrite length_take; lia).
    assert (Htail : length tail_ = 4%nat) by (unfold tail_; rewrite length_drop; lia).
    assert (Hall : length (head_ ++ lit "..." ++ tail_) = 13%nat).
    { rewrite !length_app, Hhead, Htail. reflexivity. }
    rewrite formatAddress_long by (rewrite Hall; lia).
    rewrite Hall. f_equal.
    + rewrite take_app_le by lia. apply take_ge. lia.
    + f_equal. rewrite app_assoc. rewrite drop_app_ge by (rewrite length_app, Hhead; simpl; lia).
      rewrite length_app, Hhead. change (length (lit "...")) with 3%nat.
      replace (13 - 4 - (6 + 3))%nat with 0%nat by lia. apply drop_0.
Qed.

(** ** The comparator of the ranking *)

Section ComparatorFacts.
Import FloatOrder FloatOrderFacts.

Lemma binary_normalize_negative d e :
  (emin <= e)%Z ->
  SFltb (binary_normalize prec emax d e false) (S754_zero false) = (d <? 0)%Z.
Proof.
  intros He. destruct d as [|m|m]; cbn [binary_normalize].
  - reflexivity.
  - pose proof (binary_round_signed false m e He) as Hs.
    destruct (binary_round prec emax false m e); cbn in Hs; try contradiction;
      subst; reflexivity.
  - pose proof (binary_round_signed true m e He) as Hs.
    destruct (binary_round prec emax true m e); cbn in Hs; try contradiction;
      subst; reflexivity.
Qed.

Lemma SFsub_negative x y :
  valid_binary x = true -> valid_binary y = true ->
  x <> S754_nan -> y <> S754_nan ->
  SFltb (SF64sub y x) (S754_zero false) = SFltb y x.
Proof.
  intros Vx Vy Nx Ny.
  destruct x as [sx|sx| |sx mx ex], y as [sy|sy| |sy my ey]; try congruence;
    try (destruct sx, sy; reflexivity); try (destruct sx; reflexivity);
    try (destruct sy; reflexivity).
  unfold SF64sub, SFsub.
  pose proof (bounded_facts _ _ Vx) as (Hex & _).
  pose proof (bounded_facts _ _ Vy) as (Hey & _).
  rewrite binary_normalize_negative by (fold emin; lia).
  unfold SFltb.
  rewrite (compare_finite_units (S754_finite sy my ey) (S754_finite sx mx ex))
    by (assumption || reflexivity).
  rewrite !shl_align_value by lia. cbn [units].
  set (ez := Z.min ey ex).
  assert (Hx : (Z.pos mx * 2 ^ (ex - emin) = Z.pos mx * 2 ^ (ex - ez) * 2 ^ (ez - emin))%Z).
  { rewrite <- Z.mul_assoc, <- Z.pow_add_r by lia. do 2 f_equal. lia. }
  assert (Hy : (Z.pos my * 2 ^ (ey - emin) = Z.pos my * 2 ^ (ey - ez) * 2 ^ (ez - emin))%Z).
  { rewrite <- Z.mul_assoc, <- Z.pow_add_r by lia. do 2 f_equal. lia. }
  rewrite Hx, Hy.
  assert (Hs : (0 < 2 ^ (ez - emin))%Z) by (apply Z.pow_pos_nonneg; lia).
  generalize dependent (2 ^ (ez - emin))%Z. intros S _ _ HS.
  generalize (Z.pos mx * 2 ^ (ex - ez))%Z (Z.pos my * 2 ^ (ey - ez))%Z.
  intros X Y.
  assert (HX : forall b, cond_Zopp b (X * S) = (cond_Zopp b X * S)%Z)
    by (intros []; cbn [cond_Zopp]; lia).
  assert (HY : forall b, cond_Zopp b (Y * S) = (cond_Zopp b Y * S)%Z)
    by (intros []; cbn [cond_Zopp]; lia).
  rewrite HX, HY.
  generalize (cond_Zopp sx X) (cond_Zopp sy Y). intros X' Y'.
  destruct (Z.ltb_spec (Y' - X') 0) as [Hneg|Hpos];
    destruct (Z.compare_spec (Y' * S) (X' * S)) as [Hc|Hc|Hc]; try reflexivity; nia.
Qed.

Lemma sub_negative_ltb a b :
  is_nan a = false -> is_nan b = false ->
  (b - a <? 0)%float = (b <? a)%float.
Proof.
  intros Ha Hb. rewrite !FloatAxioms.ltb_spec, FloatAxioms.sub_spec.
  change (Prim2SF 0) with (S754_zero false).
  apply SFsub_negative; auto using Prim2SF_valid, not_nan_spec.
Qed.

Lemma sub_positive_ltb a b :
  is_nan a = false -> is_nan b = false ->
  (0 <? b - a)%float = (a <? b)%float.
Proof.
  intros Ha Hb. rewrite (ltb_order_key a b Ha Hb).
  apply sub_positive_order_key; assumption.
Qed.
End ComparatorFacts.

(** X5: on strategies whose APY is not NaN, the comparator of line 74,
    [(a, b) => b.apy - a.apy], is positive exactly when [a.apy < b.apy] and
    negative exactly when [b.apy < a.apy]: the subtraction neither overflows
    into the wrong sign nor rounds the difference of two distinct APYs to
    zero. *)
Theorem comparator_orders_by_apy (a b : Strategy) :
  is_nan (apy a) = false -> is_nan (apy b) = false ->
  (0 <? apy b - apy a)%float = (apy a <? apy b)%float
  /\ (apy b - apy a <? 0)%float = (apy b <? apy a)%float.
Proof.
  intros Ha Hb. split; [apply sub_positive_ltb | apply sub_negative_ltb]; assumption.
Qed.

Lemma comparator_orders_by_apy_witness :
  (0 <? 8.25 - 4.5)%float = (4.5 <? 8.25)%float
  /\ (8.25 - 4.5 <? 0)%float = (8.25 <? 4.5)%float.
Proof.
  apply (comparator_orders_by_apy
           {| strategyId := []; name := []; protocol := []; apy := 4.5%float; riskLevel := Low |}
           {| strategyId := []; name := []; protocol := []; apy := 8.25%float; riskLevel := Low |});
    reflexivity.
Defined.

(** ** A result that is already ranked *)

(** X7: when the search already returns its strategies in descending order
    of APY (none NaN), the suggestion is the first three as returned: the
    sort changes nothing. *)
Theorem ranked_result_is_kept (strategyResult : StrategiesResult) :
  List.Forall (fun s => is_nan (apy s) = false) (strategies strategyResult) ->
  descending_apy (strategies strategyResult) ->
  suggestedStrategies strategyResult = take 3 (strategies strategyResult).
Proof.
  intros Hvalid Hdesc.
  unfold suggestedStrategies. change 3%Z with (Z.of_nat 3). rewrite slice_head.
  f_equal. apply (descending_stable_unique apy).
  - apply (sort_descending apy). assumption.
  - apply (descending_rank apy); assumption.
  - intros c. apply (sort_stable apy); [assumption|].
    intros a b Ha Hb. apply Z.eqb_eq in Ha, Hb. congruence.
Qed.

Lemma ranked_result_is_kept_witness :
  suggestedStrategies
    {| strategies := [ {| strategyId := lit "a"; name := lit "A"; protocol := lit "P";
                          apy := 9%float; riskLevel := High |};
                       {| strategyId := lit "b"; name := lit "B"; protocol := lit "P";
                          apy := 9%float; riskLevel := Low |};
                       {| strategyId := lit "c"; name := lit "C"; protocol := lit "P";
                          apy := 2.5%float; riskLevel := Low |};
                       {| strategyId := lit "d"; name := lit "D"; protocol := lit "P";
                          apy := 0%float; riskLevel := Low |} ] |}
  = [ {| strategyId := lit "a"; name := lit "A"; protocol := lit "P";
         apy := 9%float; riskLevel := High |};
      {| strategyId := lit "b"; name := lit "B"; protocol := lit "P";
         apy := 9%float; riskLevel := Low |};
      {| strategyId := lit "c"; name := lit "C"; protocol := lit "P";
         apy := 2.5%float; riskLevel := Low |} ].
Proof.
  refine (ranked_result_is_kept {| strategies := _ |} _ _).
  - repeat constructor.
  - unfold descending_apy. repeat constructor.
Defined.

(** ** What a Demo response carries *)

(** A stream response of the handler is the Demo stream of the text rendered
    from the request, under a Demo credential and an array of messages. *)
Lemma handler_stream_inv ai js apiKey body frames :
  handler ai js apiKey body = Ok (UIMessageStreamResponse frames) ->
  hasApiKey apiKey = false
  /\ isArray (get_opt body (lit "messages")) = true
  /\ exists text,
       demoText ai js (get_opt body (lit "walletAddress"))
         (get_opt body (lit "mockBalances")) (get_opt body (lit "positions")) = Ok text
       /\ frames = demo_frames text.
Proof.
  intros Hresponse.
  destruct (isArray (get_opt body (lit "messages"))) eqn:Harr.
  - rewrite (handler_validated ai js apiKey body Harr) in Hresponse.
    destruct (hasApiKey apiKey).
    + destruct (livePath _ _ _ _ _) as [r|e] eqn:Hlive; [|discriminate].
      destruct (livePath_response _ _ _ _ _ _ Hlive) as [session ->]. discriminate.
    + rewrite demoPath_response in Hresponse.
      destruct (demoText _ _ _ _ _) as [text|e]; [|discriminate].
      injection Hresponse as <-. eauto.
  - destruct body; try discriminate;
      rewrite handler_rejects_non_array in Hresponse by (discriminate || assumption);
      discriminate.
Qed.

(** X8: the text of every Demo response begins with the disclosure that the
    reply is scripted (line 82) and ends with the risk disclaimer (line 117),
    with or without a wallet. *)
Theorem demo_text_is_framed ai js apiKey body frames :
  handler ai js apiKey body = Ok (UIMessageStreamResponse frames) ->
  exists middle, frames = demo_frames (demo_intro ++ middle ++ demo_closing).
Proof.
  intros Hresponse.
  destruct (handler_stream_inv _ _ _ _ _ Hresponse) as (_ & _ & text & Htext & ->).
  destruct (truthy (get_opt body (lit "walletAddress"))) eqn:Hwallet.
  - destruct (demoText_wallet_layout ai js _ _ _ _ Hwallet Htext)
      as (total & address & balancesResult & strategyResult & _ & _ & _ & _ & ->).
    exists ((nl ++ nl ++ lit "Wallet: " ++ address)
            ++ (nl ++ lit "Total balance: " ++ formatUsd js (totalValueUSD balancesResult))
            ++ balancesSection js balancesResult
            ++ positionsSection js (array_or_empty (get_opt body (lit "positions"))) total
            ++ strategiesSection js (suggestedStrategies strategyResult)).
    do 2 f_equal. rewrite <- !app_assoc. reflexivity.
  - rewrite (demoText_no_wallet_text ai js _ _ _ _ Hwallet Htext). eauto.
Qed.

Lemma demo_text_is_framed_witness :
  exists middle,
    demo_frames (demo_intro ++ demo_generic ++ demo_closing)
    = demo_frames (demo_intro ++ middle ++ demo_closing).
Proof.
  apply (demo_text_is_framed Sample.ai Sample.js None Sample.body_no_wallet).
  reflexivity.
Defined.

(** X9: a connected wallet with nothing in it: when the balance aggregation
    returns no balance, the request has no position and the search returns
    no strategy, the text is the disclosure, the address and total lines,
    the two "none yet" lines and the disclaimer; no "Suggested strategies"
    heading is rendered. *)
Theorem empty_wallet_text ai js (address : jsstring) mockBalances positions
    balancesResult text :
  address <> [] ->
  array_or_empty positions = [] ->
  executeGetWalletBalances ai (VArr (array_or_empty mockBalances)) = Ok balancesResult ->
  balances balancesResult = [] ->
  executeFindYieldStrategies ai (strategyQuery (array_or_empty mockBalances))
  = Ok {| strategies := [] |} ->
  demoText ai js (VStr address) mockBalances positions = Ok text ->
  text = demo_intro
         ++ (nl ++ nl ++ lit "Wallet: " ++ formatAddress address)
         ++ (nl ++ lit "Total balance: " ++ formatUsd js (totalValueUSD balancesResult))
         ++ no_balances_line
         ++ no_positions_line
         ++ demo_closing.
Proof.
  intros Haddress Hpositions Hbalances Hnone Hstrategies Htext.
  assert (Htruthy : truthy (VStr address) = true) by (destruct address; [congruence | reflexivity]).
  destruct (demoText_wallet_layout ai js _ _ _ _ Htruthy Htext)
    as (total & address' & balancesResult' & strategyResult & _ & Haddr & Hb & Hs & ->).
  cbn [addressText] in Haddr. injection Haddr as <-.
  rewrite Hbalances in Hb. injection Hb as <-.
  rewrite Hstrategies in Hs. injection Hs as <-.
  rewrite Hpositions. unfold balancesSection. rewrite Hnone.
  reflexivity.
Qed.

Lemma empty_wallet_text_witness :
  demoText empty_market Sample.js (VStr (lit "0xABCDEF1234567890")) VUndefined VUndefined
  = Ok (demo_intro
        ++ (nl ++ nl ++ lit "Wallet: 0xABCD...7890")
        ++ (nl ++ lit "Total balance: $0.00")
        ++ no_balances_line ++ no_positions_line ++ demo_closing).
Proof.
  refine (f_equal Ok
    (eq_sym (empty_wallet_text empty_market Sample.js (lit "0xABCDEF1234567890")
               VUndefined VUndefined {| totalValueUSD := 0%float; balances := [] |}
               _ _ _ _ _ _ _)));
    try reflexivity.
  discriminate.
Defined.

(** ** A value that is not a number in the position total *)

Section TotalFacts.
Import FloatOrderFacts.
Context (js : Platform).

Lemma is_nan_add_l a b : is_nan a = true -> is_nan (a + b)%float = true.
Proof.
  intros Ha. apply is_nan_spec. apply is_nan_spec in Ha.
  rewrite FloatAxioms.add_spec, Ha. reflexivity.
Qed.

Lemma is_nan_add_r a b : is_nan b = true -> is_nan (a + b)%float = true.
Proof.
  intros Hb. apply is_nan_spec. apply is_nan_spec in Hb.
  rewrite FloatAxioms.add_spec, Hb. destruct (Prim2SF a); reflexivity.
Qed.

Lemma Number_primitive position :
  primitive_currentValue position ->
  Number js (or_else (get_opt position (lit "currentValue")) (VNum 0))
  = Ok (number_of_primitive js (or_else (get_opt position (lit "currentValue")) (VNum 0))).
Proof.
  unfold primitive_currentValue, or_else.
  destruct (get_opt position (lit "currentValue")) as [| |b|n|s|items|fields];
    try contradiction; intros _; cbn [truthy];
    try reflexivity.
  - destruct b; reflexivity.
  - destruct (negb (is_nan n) && negb (n =? 0)%float); reflexivity.
  - destruct s; reflexivity.
Qed.

Lemma reduce_primitive positionsList : forall sum,
  List.Forall primitive_currentValue positionsList ->
  reduce
    (fun sum position =>
       n ← Number js (or_else (get_opt position (lit "currentValue")) (VNum 0));
       Ok (sum + n)%float)
    positionsList sum
  = Ok (foldl
          (fun sum position =>
             (sum + number_of_primitive js
                      (or_else (get_opt position (lit "currentValue")) (VNum 0)))%float)
          sum positionsList).
Proof.
  induction positionsList as [|position rest IH]; intros sum Hall; [reflexivity|].
  apply List.Forall_cons_iff in Hall as [Hp Hrest].
  cbn [reduce foldl]. rewrite (Number_primitive position Hp).
  cbn [mbind result_bind]. apply IH. assumption.
Qed.

Lemma foldl_nan_stays (f : value -> float) positionsList : forall sum,
  is_nan sum = true ->
  is_nan (foldl (fun sum position => (sum + f position)%float) sum positionsList) = true.
Proof.
  induction positionsList as [|position rest IH]; intros sum Hsum; [exact Hsum|].
  cbn [foldl]. apply IH. apply is_nan_add_l. exact Hsum.
Qed.

Lemma foldl_nan_enters (f : value -> float) positionsList : forall sum,
  List.Exists (fun position => is_nan (f position) = true) positionsList ->
  is_nan (foldl (fun sum position => (sum + f position)%float) sum positionsList) = true.
Proof.
  induction positionsList as [|position rest IH]; intros sum Hex;
    [apply List.Exists_nil in Hex; contradiction|].
  cbn [foldl]. apply List.Exists_cons in Hex as [Hhere|Hlater].
  - apply foldl_nan_stays. apply is_nan_add_r. exact Hhere.
  - apply IH. exact Hlater.
Qed.

Lemma total_not_a_number positionsList :
  List.Forall primitive_currentValue positionsList ->
  List.Exists (non_numeric_currentValue js) positionsList ->
  exists total,
    totalPositionsValue js positionsList = Ok total /\ is_nan total = true.
Proof.
  intros Hall Hex. unfold totalPositionsValue. rewrite (reduce_primitive _ _ Hall).
  eexists. split; [reflexivity|].
  apply (foldl_nan_enters
           (fun position =>
              number_of_primitive js
                (or_else (get_opt position (lit "currentValue")) (VNum 0)))).
  apply (List.Exists_impl (P := non_numeric_currentValue js)); [|exact Hex].
  intros position (s & Hs & Hne & Hnan). rewrite Hs. unfold or_else.
  destruct s; [congruence|]. exact Hnan.
Qed.
End TotalFacts.

(** X10: one position whose [currentValue] is a string that is not a number
    makes the whole total NaN, wherever it stands in the list and whatever
    the other positions hold (as long as no [currentValue] is an array or
    object, whose conversion may throw): the [|| 0] of line 65 does not
    catch it. *)
Theorem non_numeric_value_spoils_total (js : Platform) (positionsList : list value) :
  List.Forall primitive_currentValue positionsList ->
  List.Exists (non_numeric_currentValue js) positionsList ->
  exists total,
    totalPositionsValue js positionsList = Ok total /\ is_nan total = true.
Proof. apply total_not_a_number. Qed.

Lemma non_numeric_value_spoils_total_witness :
  exists total,
    totalPositionsValue Sample.js
      [ VObj {[ lit "currentValue" := VNum 1250.5%float ]};
        VObj {[ lit "currentValue" := VStr (lit "n/a") ]};
        VObj {[ lit "currentValue" := VNum 49.5%float ]} ]
    = Ok total /\ is_nan total = true.
Proof.
  apply (non_numeric_value_spoils_total Sample.js).
  - repeat constructor.
  - apply List.Exists_cons_tl. apply List.Exists_cons_hd.
    exists (lit "n/a"). split; [reflexivity | split; [discriminate | reflexivity]].
Defined.

(** ** The Live path *)

Lemma systemPrompt_prefix js walletAddress mockBalances positions prompt :
  systemPrompt js walletAddress mockBalances positions = Ok prompt ->
  exists rest, prompt = SYSTEM_PROMPT ++ rest.
Proof.
  unfold systemPrompt. destruct (truthy walletAddress).
  - destruct (interpolate js walletAddress); cbn [mbind result_bind]; [|discriminate].
    destruct (positionsCountText js positions); cbn [mbind result_bind]; [|discriminate].
    intros [= <-]. eauto.
  - intros [= <-]. eauto.
Qed.

(** X11: every model session the handler opens is opened under a Live
    credential with the model [claude-3-5-sonnet-20241022], a ceiling of
    4096 tokens, the eight tools, the SDK's conversion of the request's
    [messages] as history, and a system prompt that begins with the fixed
    persona text of lines 21-45. *)
Theorem live_session_parameters ai js apiKey body session :
  handler ai js apiKey body = Ok (StreamTextResponse session) ->
  hasApiKey apiKey = true
  /\ model session = lit "claude-3-5-sonnet-20241022"
  /\ maxTokens session = 4096%nat
  /\ tools session = tool_catalogue
  /\ convertToCoreMessages js (array_or_empty (get_opt body (lit "messages")))
     = Ok (messages session)
  /\ exists rest, system session = SYSTEM_PROMPT ++ rest.
Proof.
  intros Hresponse.
  destruct (isArray (get_opt body (lit "messages"))) eqn:Harr.
  - rewrite (handler_validated ai js apiKey body Harr) in Hresponse.
    destruct (hasApiKey apiKey).
    + unfold livePath, try_catch in Hresponse.
      destruct (systemPrompt _ _ _ _) as [prompt|] eqn:Hprompt;
        cbn [mbind result_bind] in Hresponse; [|discriminate].
      destruct (convertToCoreMessages _ _) as [history|] eqn:Hhistory;
        cbn [mbind result_bind] in Hresponse; [|discriminate].
      injection Hresponse as <-. cbn [model maxTokens tools messages system].
      repeat (split; [reflexivity|]).
      exact (systemPrompt_prefix _ _ _ _ _ Hprompt).
    + rewrite demoPath_response in Hresponse.
      destruct (demoText _ _ _ _ _); discriminate.
  - destruct body; try discriminate;
      rewrite handler_rejects_non_array in Hresponse by (discriminate || assumption);
      discriminate.
Qed.

Lemma live_session_parameters_witness :
  exists session,
    handler Sample.ai Sample.js (Some (lit "sk-ant-api03-live")) Sample.body_wallet
    = Ok (StreamTextResponse session)
    /\ maxTokens session = 4096%nat
    /\ tools session = tool_catalogue.
Proof.
  destruct (handler Sample.ai Sample.js (Some (lit "sk-ant-api03-live")) Sample.body_wallet)
    as [[frames|session]|e] eqn:Hresponse;
    [vm_compute in Hresponse; discriminate | | vm_compute in Hresponse; discriminate].
  exists session. split; [reflexivity|].
  destruct (live_session_parameters Sample.ai Sample.js _ _ _ Hresponse)
    as (_ & _ & Hmax & Htools & _).
  split; assumption.
Defined.

(** X12: the system prompt of every session opened for a request without a
    (truthy) wallet address is the persona text followed by the fixed
    NOT CONNECTED block, whatever [mockBalances] and [positions] hold. *)
Theorem prompt_without_wallet ai js apiKey body session :
  handler ai js apiKey body = Ok (StreamTextResponse session) ->
  truthy (get_opt body (lit "walletAddress")) = false ->
  system session = SYSTEM_PROMPT ++ not_connected_block.
Proof.
  intros Hresponse Hfalsy.
  destruct (isArray (get_opt body (lit "messages"))) eqn:Harr.
  - rewrite (handler_validated ai js apiKey body Harr) in Hresponse.
    destruct (hasApiKey apiKey).
    + unfold livePath, systemPrompt, try_catch in Hresponse.
      rewrite Hfalsy in Hresponse. cbn [mbind result_bind] in Hresponse.
      destruct (convertToCoreMessages _ _); cbn [mbind result_bind] in Hresponse;
        [|discriminate].
      injection Hresponse as <-. reflexivity.
    + rewrite demoPath_response in Hresponse.
      destruct (demoText _ _ _ _ _); discriminate.
  - destruct body; try discriminate;
      rewrite handler_rejects_non_array in Hresponse by (discriminate || assumption);
      discriminate.
Qed.

Lemma prompt_without_wallet_witness :
  exists session,
    handler Sample.ai Sample.js (Some (lit "sk-ant-api03-live"))
      (VObj (<[lit "messages" := VArr [Sample.user_message]]>
             (<[lit "walletAddress" := VStr []]>
             (<[lit "positions" := VArr [VNull; VNull]]> ∅))))
    = Ok (StreamTextResponse session)
    /\ system session = SYSTEM_PROMPT ++ not_connected_block.
Proof.
  destruct (handler Sample.ai Sample.js (Some (lit "sk-ant-api03-live"))
              (VObj (<[lit "messages" := VArr [Sample.user_message]]>
                     (<[lit "walletAddress" := VStr []]>
                     (<[lit "positions" := VArr [VNull; VNull]]> ∅)))))
    as [[frames|session]|e] eqn:Hresponse;
    [vm_compute in Hresponse; discriminate | | vm_compute in Hresponse; discriminate].
  exists session. split; [reflexivity|].
  apply (prompt_without_wallet Sample.ai Sample.js _ _ _ Hresponse). reflexivity.
Defined.

(** X13: the [get_wallet_balances] tool of the Live path aggregates the same
    argument as the Demo synthesizer does for the same request, when
    [mockBalances] is an array or is missing: both call the balance
    aggregation on the normalized list.  (A truthy [mockBalances] that is
    not an array reaches the tool as it is, and the Demo path as [[]].) *)
Theorem balances_tool_matches_demo ai js args st :
  isArray (stored_balances st) = true \/ truthy (stored_balances st) = false ->
  tool_execute ai js get_wallet_balances args st
  = (OutBalances <$> executeGetWalletBalances ai (VArr (array_or_empty (stored_balances st))),
     st).
Proof.
  intros Hbalances. cbn [tool_execute]. do 2 f_equal. unfold or_else.
  destruct Hbalances as [Harr|Hfalsy].
  - destruct (stored_balances st); try discriminate. reflexivity.
  - rewrite Hfalsy. destruct (stored_balances st); try discriminate; reflexivity.
Qed.

Lemma balances_tool_matches_demo_witness :
  tool_execute Sample.ai Sample.js get_wallet_balances VUndefined
    {| stored_balances := VNull; stored_positions := VUndefined |}
  = (OutBalances <$> executeGetWalletBalances Sample.ai (VArr []),
     {| stored_balances := VNull; stored_positions := VUndefined |}).
Proof.
  apply (balances_tool_matches_demo Sample.ai Sample.js VUndefined
           {| stored_balances := VNull; stored_positions := VUndefined |}).
  right. reflexivity.
Defined.

(** ** The body of the request *)

(** X14: a request without a JSON body ([undefined] or [null]) fails with
    status 500 and the message of the TypeError of the destructuring at
    line 50; every other body that is not an object (a string, a number, a
    boolean, an array) is rejected like a body without [messages]. *)
Theorem body_not_an_object ai js apiKey body :
  (forall fields, body <> VObj fields) ->
  handler ai js apiKey body
  = Throw (H3Error 500
             match body with
             | VUndefined | VNull => error_message (destructureError js body)
             | _ => lit "Invalid request: messages array required"
             end).
Proof.
  intros Hbody. destruct body; try reflexivity.
  exfalso. apply (Hbody fields). reflexivity.
Qed.

Lemma body_not_an_object_witness :
  handler Sample.ai Sample.js None (VArr [Sample.user_message])
  = Throw (H3Error 500 (lit "Invalid request: messages array required")).
Proof.
  apply (body_not_an_object Sample.ai Sample.js None (VArr [Sample.user_message])).
  discriminate.
Defined.

(** ** Token symbols *)

Lemma tokenSymbols_app (l1 l2 : list value) :
  tokenSymbols (l1 ++ l2) = tokenSymbols l1 ++ tokenSymbols l2.
Proof. unfold tokenSymbols. rewrite List.map_app, List.filter_app. reflexivity. Qed.

(** X15: the token symbols are collected balance by balance, in order and
    with repetitions, and a balance without a (truthy) [token.symbol] adds
    nothing: removing it from the wallet leaves the argument of the
    strategy search unchanged. *)
Theorem balance_without_symbol_is_skipped (before after : list value) (balance_ : value) :
  truthy (get_opt (get_opt balance_ (lit "token")) (lit "symbol")) = false ->
  tokenSymbols (before ++ balance_ :: after) = tokenSymbols before ++ tokenSymbols after
  /\ strategyQuery (before ++ balance_ :: after) = strategyQuery (before ++ after).
Proof.
  intros Hfalsy.
  assert (Hsymbols : tokenSymbols (before ++ balance_ :: after)
                     = tokenSymbols (before ++ after)).
  { rewrite !tokenSymbols_app. f_equal. unfold tokenSymbols.
    cbn [List.map List.filter]. rewrite Hfalsy. reflexivity. }
  split.
  - rewrite Hsymbols. apply tokenSymbols_app.
  - unfold strategyQuery. rewrite Hsymbols. reflexivity.
Qed.

Lemma balance_without_symbol_is_skipped_witness :
  strategyQuery ([Sample.usdc_balance] ++ VObj {[ lit "balance" := VStr (lit "5") ]} :: [])
  = strategyQuery ([Sample.usdc_balance] ++ []).
Proof.
  apply (balance_without_symbol_is_skipped [Sample.usdc_balance] []
           (VObj {[ lit "balance" := VStr (lit "5") ]})).
  reflexivity.
Defined.

(** ** Positions without a value *)

(** X16: positions none of which has a (truthy) [currentValue], however
    many and whatever else they hold, total to 0; among them are [null]
    entries and entries that are not objects. *)
Theorem positions_without_value_total_zero (js : Platform) (positionsList : list value) :
  List.Forall (fun position => truthy (get_opt position (lit "currentValue")) = false)
    positionsList ->
  totalPositionsValue js positionsList = Ok 0%float.
Proof.
  intros Hall. unfold totalPositionsValue.
  rewrite reduce_positions.
  - f_equal. induction positionsList as [|position rest IH]; [reflexivity|].
    apply List.Forall_cons_iff in Hall as [Hp Hrest]. cbn [foldl].
    assert (Hzero : currentValue_of position = 0%float).
    { unfold currentValue_of.
      destruct (get_opt position (lit "currentValue")); try reflexivity.
      rewrite Hp. reflexivity. }
    rewrite Hzero. change (0 + 0)%float with 0%float. apply IH. assumption.
  - apply (List.Forall_impl _ (P := fun position =>
             truthy (get_opt position (lit "currentValue")) = false)); [|exact Hall].
    intros position Hp. unfold numeric_or_missing.
    destruct (get_opt position (lit "currentValue")); trivial.
Qed.

Lemma positions_without_value_total_zero_witness :
  totalPositionsValue Sample.js
    [ VNull; VStr (lit "p1"); VObj {[ lit "id" := VStr (lit "p2") ]};
      VObj {[ lit "currentValue" := VStr [] ]}; VObj {[ lit "currentValue" := VNum 0%float ]} ]
  = Ok 0%float.
Proof.
  apply (positions_without_value_total_zero Sample.js). repeat constructor.
Defined.

(** * Determinism of the rendered text *)

Section TextDetermined.
Context (ai1 ai2 : AiTools) (js1 js2 : Platform).
Hypothesis same_balances : executeGetWalletBalances ai1 = executeGetWalletBalances ai2.
Hypothesis same_search : executeFindYieldStrategies ai1 = executeFindYieldStrategies ai2.
Hypothesis same_toLocaleString : toLocaleString js1 = toLocaleString js2.
Hypothesis same_toFixed : toFixed js1 = toFixed js2.
Hypothesis same_StringToNumber : StringToNumber js1 = StringToNumber js2.
Hypothesis same_ObjectToNumber : ObjectToNumber js1 = ObjectToNumber js2.
Hypothesis same_untyped : formatUntypedAddress js1 = formatUntypedAddress js2.

(** The synthesizer uses two of the domain functions and five of the
    built-ins, and nothing else of its environment. *)
Lemma demoText_environment walletAddress mockBalances positions :
  demoText ai1 js1 walletAddress mockBalances positions
  = demoText ai2 js2 walletAddress mockBalances positions.
Proof.
  destruct ai1, ai2, js1, js2. cbn in *. subst. reflexivity.
Qed.

Lemma handler_demo_environment apiKey1 apiKey2 body1 body2 :
  hasApiKey apiKey1 = false -> hasApiKey apiKey2 = false ->
  isArray (get_opt body1 (lit "messages")) = true ->
  isArray (get_opt body2 (lit "messages")) = true ->
  get_opt body1 (lit "walletAddress") = get_opt body2 (lit "walletAddress") ->
  get_opt body1 (lit "mockBalances") = get_opt body2 (lit "mockBalances") ->
  get_opt body1 (lit "positions") = get_opt body2 (lit "positions") ->
  handler ai1 js1 apiKey1 body1 = handler ai2 js2 apiKey2 body2.
Proof.
  intros Hk1 Hk2 Hm1 Hm2 Hw Hb Hp.
  rewrite (handler_validated ai1 js1 apiKey1 body1 Hm1).
  rewrite (handler_validated ai2 js2 apiKey2 body2 Hm2).
  rewrite Hk1, Hk2, Hw, Hb, Hp, !demoPath_response, demoText_environment.
  reflexivity.
Qed.
End TextDetermined.

Lemma rendered_text_demo messageId text :
  rendered_text (sent_chunks messageId (demo_frames text)) = text.
Proof.
  unfold rendered_text, sent_chunks, demo_frames. cbn [List.map stamp List.flat_map].
  cbn [app]. apply app_nil_r.
Qed.

(** The responses themselves are not equal from run to run: the generated
    id is part of what is sent. *)
Lemma sent_chunks_differ id1 id2 text :
  id1 <> id2 ->
  sent_chunks id1 (demo_frames text) <> sent_chunks id2 (demo_frames text).
Proof.
  intros Hne Heq. apply Hne. unfold sent_chunks, demo_frames in Heq.
  cbn [List.map stamp] in Heq. congruence.
Qed.

(** C2: take two runs of the handler in Demo mode on requests with the same
    [walletAddress], [mockBalances] and [positions].  Their [messages], their
    other fields, their Demo credentials and the message ids the SDK
    generates may differ, and so may every part of the environment that the
    synthesizer does not use (the Live-only domain functions, the SDK's
    message conversion, [JSON.stringify]).  Then the second run answers with
    a stream exactly when the first does, and the texts rendered from the
    two streams are equal, code unit for code unit; and when the first run
    fails the second fails with the same error. *)
Theorem demo_text_determined ai1 ai2 js1 js2 apiKey1 apiKey2 body1 body2 id1 id2 :
  executeGetWalletBalances ai1 = executeGetWalletBalances ai2 ->
  executeFindYieldStrategies ai1 = executeFindYieldStrategies ai2 ->
  toLocaleString js1 = toLocaleString js2 ->
  toFixed js1 = toFixed js2 ->
  StringToNumber js1 = StringToNumber js2 ->
  ObjectToNumber js1 = ObjectToNumber js2 ->
  formatUntypedAddress js1 = formatUntypedAddress js2 ->
  hasApiKey apiKey1 = false -> hasApiKey apiKey2 = false ->
  isArray (get_opt body1 (lit "messages")) = true ->
  isArray (get_opt body2 (lit "messages")) = true ->
  get_opt body1 (lit "walletAddress") = get_opt body2 (lit "walletAddress") ->
  get_opt body1 (lit "mockBalances") = get_opt body2 (lit "mockBalances") ->
  get_opt body1 (lit "positions") = get_opt body2 (lit "positions") ->
  (forall frames1,
      handler ai1 js1 apiKey1 body1 = Ok (UIMessageStreamResponse frames1) ->
      exists frames2,
        handler ai2 js2 apiKey2 body2 = Ok (UIMessageStreamResponse frames2)
        /\ rendered_text (sent_chunks id1 frames1)
           = rendered_text (sent_chunks id2 frames2))
  /\ (forall e,
        handler ai1 js1 apiKey1 body1 = Throw e ->
        handler ai2 js2 apiKey2 body2 = Throw e).
Proof.
  intros Hbal Hsearch Hlocale Hfixed Hstring Hobject Huntyped Hk1 Hk2 Hm1 Hm2 Hw Hb Hp.
  pose proof (handler_demo_environment ai1 ai2 js1 js2 Hbal Hsearch Hlocale Hfixed
                Hstring Hobject Huntyped apiKey1 apiKey2 body1 body2
                Hk1 Hk2 Hm1 Hm2 Hw Hb Hp) as Hsame.
  split.
  - intros frames1 Hresponse. exists frames1. split; [congruence|].
    destruct (handler_stream_inv _ _ _ _ _ Hresponse) as (_ & _ & text & _ & ->).
    rewrite !rendered_text_demo. reflexivity.
  - intros e Hfailure. congruence.
Qed.

Lemma demo_text_determined_witness :
  exists frames1 frames2,
    handler Sample.ai Sample.js None Sample.body_wallet
    = Ok (UIMessageStreamResponse frames1)
    /\ handler idle_tools other_engine (Some placeholder_key)
         (VObj (<[lit "messages" := VArr []]>
                (<[lit "walletAddress" := VStr (lit "0xABCDEF1234567890")]>
                (<[lit "mockBalances" := VArr [Sample.usdc_balance]]>
                (<[lit "positions" := VArr []]>
                (<[lit "sessionId" := VStr (lit "42")]> ∅))))))
       = Ok (UIMessageStreamResponse frames2)
    /\ rendered_text (sent_chunks (lit "msg-Atv3") frames1)
       = rendered_text (sent_chunks (lit "msg-9Qx0") frames2)
    /\ sent_chunks (lit "msg-Atv3") frames1 <> sent_chunks (lit "msg-9Qx0") frames2.
Proof.
  destruct (handler Sample.ai Sample.js None Sample.body_wallet)
    as [[frames1|session]|e] eqn:Hfirst;
    [| vm_compute in Hfirst; discriminate | vm_compute in Hfirst; discriminate].
  destruct (demo_text_determined Sample.ai idle_tools Sample.js other_engine
              None (Some placeholder_key) Sample.body_wallet
              (VObj (<[lit "messages" := VArr []]>
                     (<[lit "walletAddress" := VStr (lit "0xABCDEF1234567890")]>
                     (<[lit "mockBalances" := VArr [Sample.usdc_balance]]>
                     (<[lit "positions" := VArr []]>
                     (<[lit "sessionId" := VStr (lit "42")]> ∅))))))
              (lit "msg-Atv3") (lit "msg-9Qx0")
              eq_refl eq_refl eq_refl eq_refl eq_refl eq_refl eq_refl
              ltac:(vm_compute; reflexivity) ltac:(vm_compute; reflexivity)
              ltac:(vm_compute; reflexivity) ltac:(vm_compute; reflexivity)
              ltac:(vm_compute; reflexivity) ltac:(vm_compute; reflexivity)
              ltac:(vm_compute; reflexivity))
    as [Hstream _].
  destruct (Hstream frames1 Hfirst) as (frames2 & Hsecond & Htext).
  exists frames1, frames2. split; [reflexivity|]. split; [exact Hsecond|].
  split; [exact Htext|].
  vm_compute in Hfirst. injection Hfirst as <-.
  vm_compute in Hsecond. injection Hsecond as <-.
  vm_compute. discriminate.
Defined.

(** * An APY that is not a number *)

Lemma StronglySorted_related {A} (R : A -> A -> Prop) (l : list A) :
  StronglySorted R l ->
  forall x y, In x l -> In y l -> x = y \/ R x y \/ R y x.
Proof.
  induction 1 as [|a l Hsorted IH Hall]; intros x y Hx Hy; [contradiction|].
  pose proof (proj1 (List.Forall_forall _ _) Hall) as Hlater.
  destruct Hx as [<-|Hx], Hy as [<-|Hy]; auto.
Qed.

(** C7 as stated fails: a result with APYs 1, NaN and 2 has no arrangement
    in descending order of APY, NaN being neither below nor above another
    APY; so the three suggestions made for it are not such an arrangement. *)
Lemma nan_apy_has_no_descending_order :
  length (suggestedStrategies result_with_nan) = 3%nat
  /\ ~ (exists ranked,
          Permutation ranked (strategies result_with_nan) /\ descending_apy ranked).
Proof.
  split; [reflexivity|].
  intros (ranked & Hperm & Hsorted).
  set (one := {| strategyId := lit "s1"; name := lit "One"; protocol := lit "P";
                 apy := 1%float; riskLevel := Low |}).
  set (unknown := {| strategyId := lit "s2"; name := lit "Unknown"; protocol := lit "P";
                     apy := nan; riskLevel := Medium |}).
  assert (Hone : In one ranked).
  { apply (Permutation_in _ (Permutation_sym Hperm)). left. reflexivity. }
  assert (Hunknown : In unknown ranked).
  { apply (Permutation_in _ (Permutation_sym Hperm)). right. left. reflexivity. }
  destruct (StronglySorted_related _ _ Hsorted one unknown Hone Hunknown)
    as [Heq | [Hle | Hle]].
  - apply (f_equal riskLevel) in Heq. discriminate Heq.
  - vm_compute in Hle. discriminate Hle.
  - vm_compute in Hle. discriminate Hle.
Qed.
